(** * pg-schema-diff: SQL vertex generators for views, functions and event triggers

    A shallow embedding of the three generators of package [diff]
    (view, function and event trigger) together with the properties the
    specification states about the statements and dependency edges they emit. *)

From Stdlib Require Import Ascii String.
From stdpp Require Import base decidable option list strings numbers gmap.

(** ** Go values *)

(** A Go slice as far as [range], [len] and [cmp.Equal] can observe it:
    [None] is the nil slice, [Some l] a non-nil slice holding [l].
    [cmp.Equal] tells a nil slice from an empty non-nil one, so the zero value
    of a struct (all slices nil) differs from the same struct with empty
    slices. *)
Definition slice (A : Type) : Type := option (list A).

Definition elems {A : Type} (s : slice A) : list A :=
  match s with
  | None => []
  | Some l => l
  end.

Definition len {A : Type} (s : slice A) : nat := length (elems s).

(** A [for _, x := range xs] loop whose body updates the loop state [s]. *)
Definition range {A S : Type} (xs : list A) (body : S -> A -> S) (s : S) : S :=
  fold_left body xs s.

(** [append(s, x)] on a result slice. Results are only ever consumed through
    [len] and [range], so a result slice is a list. *)
Definition append {A : Type} (s : list A) (x : A) : list A := s ++ [x].

(** Go's [(T, error)] results. An error is its message. *)
Inductive result (A : Type) : Type :=
  | Ok (a : A)
  | Err (msg : string).
Arguments Ok {A} a.
Arguments Err {A} msg.

(** [fmt.Errorf(prefix + ": %w", err)] *)
Definition wrap (prefix msg : string) : string := prefix +:+ ": " +:+ msg.

(** [x, err := c; if err != nil { return nil, onErr(err) }; k x] *)
Definition try {A B : Type} (c : result A) (onErr : string -> string)
    (k : A -> result B) : result B :=
  match c with
  | Ok a => k a
  | Err msg => Err (onErr msg)
  end.

Definition is_Ok {A : Type} (r : result A) : Prop := exists a, r = Ok a.

(** ** Strings *)

Definition dquote : string := String (ascii_of_nat 34) EmptyString.
Definition newline : string := String (ascii_of_nat 10) EmptyString.
Definition squote : ascii := ascii_of_nat 39.

(** [strings.ReplaceAll(s, old, new)] for a pattern [old] of one byte. *)
Fixpoint ReplaceAll (s : string) (old : ascii) (new : string) : string :=
  match s with
  | EmptyString => EmptyString
  | String c rest =>
      if Ascii.eqb c old then new +:+ ReplaceAll rest old new
      else String c (ReplaceAll rest old new)
  end.

(** [strings.Join(elems, sep)] *)
Fixpoint Join (l : list string) (sep : string) : string :=
  match l with
  | [] => EmptyString
  | [x] => x
  | x :: rest => x +:+ sep +:+ Join rest sep
  end.

(** ** Package schema *)

Module schema.

(** Modelled from the spec: the schema package is absent from the sources.
    A qualified name pairs a schema name with a pre-escaped object name
    (section 3.1); the field names are those of the struct literals in
    view_test.go. *)
Record SchemaQualifiedName : Type := {
  SchemaName : string;
  EscapedName : string;
}.

(** Modelled from the spec: [EscapeIdentifier] is absent from the sources.
    Identifiers appear double-quoted (section 6.3); the expected DDL of
    TestEventTriggerSQLVertexGenerator_Delete wraps the name in double
    quotes. *)
Definition EscapeIdentifier (name : string) : string :=
  dquote +:+ name +:+ dquote.

(** Modelled from the spec: [GetFQEscapedName] is absent from the sources.
    The fully-qualified escaped name is the escaped schema name, a dot and the
    pre-escaped object name (glossary; TestViewGetName). *)
Definition GetFQEscapedName (o : SchemaQualifiedName) : string :=
  EscapeIdentifier (SchemaName o) +:+ "." +:+ EscapedName o.

(** Modelled from the spec: [GetName] is absent from the sources. Map-key
    identity uses the fully-qualified escaped form (section 3.1;
    TestViewGetName expects it of [view.GetName()]). *)
Definition GetName (o : SchemaQualifiedName) : string := GetFQEscapedName o.

(** Modelled from the spec: column attributes of section 3.2 (name, type,
    nullability, default). The generators read [Name] only. *)
Record Column : Type := {
  Column_Name : string;
  Column_Type : string;
  Column_IsNullable : bool;
  Column_Default : string;
}.

(** Modelled from the spec: a table has a name, an ordered list of columns
    and constraints (section 3.2). The generators read the name and
    [Columns] and compare the whole value with the zero value. *)
Record Table : Type := {
  Table_SchemaQualifiedName : SchemaQualifiedName;
  Columns : slice Column;
  Table_Constraints : slice string;
}.

(** Modelled from the spec: a view has a name, its definition text and the
    two dependency lists of section 3.2; field names from view_test.go.
    The field [Definition] is written [Definition_], and an embedded
    [SchemaQualifiedName] is a field named after its struct. *)
Record View : Type := {
  View_SchemaQualifiedName : SchemaQualifiedName;
  Definition_ : string;
  View_DependsOnTables : slice SchemaQualifiedName;
  DependsOnViews : slice SchemaQualifiedName;
}.

(** Modelled from the spec: a best-effort (table, column) pair extracted from
    a function body; field names from function_parser_test.go. *)
Record TableColumnRef : Type := {
  TableName : string;
  ColumnName : string;
}.

(** Modelled from the spec: a function has a name, its full CREATE text, a
    language tag and the three dependency lists of section 3.2. *)
Record Function : Type := {
  Function_SchemaQualifiedName : SchemaQualifiedName;
  FunctionDef : string;
  Language : string;
  DependsOnFunctions : slice SchemaQualifiedName;
  Function_DependsOnTables : slice SchemaQualifiedName;
  ReferencedColumns : slice TableColumnRef;
}.

(** Modelled from the spec: an event trigger has an unqualified name, an
    event, a tag list, an enabled flag and the qualified name of its
    function; field names from the struct literals of the generator's test,
    with [Function] written [Function_]. *)
Record EventTrigger : Type := {
  Name : string;
  Event : string;
  Function_ : SchemaQualifiedName;
  Enabled : string;
  Tags : slice string;
}.

(** The zero values [schema.Table{}], [schema.View{}], [schema.Function{}]. *)
Definition zeroName : SchemaQualifiedName :=
  {| SchemaName := EmptyString; EscapedName := EmptyString |}.

Definition zeroTable : Table :=
  {| Table_SchemaQualifiedName := zeroName; Columns := None;
     Table_Constraints := None |}.

Definition zeroView : View :=
  {| View_SchemaQualifiedName := zeroName; Definition_ := EmptyString;
     View_DependsOnTables := None; DependsOnViews := None |}.

Definition zeroFunction : Function :=
  {| Function_SchemaQualifiedName := zeroName; FunctionDef := EmptyString;
     Language := EmptyString; DependsOnFunctions := None;
     Function_DependsOnTables := None; ReferencedColumns := None |}.

(** [cmp.Equal] on these structs is equality of all fields, slices compared
    elementwise with nil and empty kept apart: equality of the embedded
    values, which is decidable. *)
#[global] Instance SchemaQualifiedName_eq_dec : EqDecision SchemaQualifiedName.
Proof. solve_decision. Defined.
#[global] Instance Column_eq_dec : EqDecision Column.
Proof. solve_decision. Defined.
#[global] Instance Table_eq_dec : EqDecision Table.
Proof. solve_decision. Defined.
#[global] Instance View_eq_dec : EqDecision View.
Proof. solve_decision. Defined.
#[global] Instance TableColumnRef_eq_dec : EqDecision TableColumnRef.
Proof. solve_decision. Defined.
#[global] Instance Function_eq_dec : EqDecision Function.
Proof. solve_decision. Defined.
#[global] Instance EventTrigger_eq_dec : EqDecision EventTrigger.
Proof. solve_decision. Defined.

End schema.

(** ** Package diff: statements, vertices and dependencies *)

Module diff.
Import schema.

(** [time.Duration], in nanoseconds. *)
Definition Duration : Type := Z.

(** The two default timeouts every statement of these generators carries.
    Their declarations are not among the sources, so they are taken as
    parameters of the development. *)
Class Defaults : Type := {
  statementTimeoutDefault : Duration;
  lockTimeoutDefault : Duration;
}.

(** Modelled from the spec: the hazard kinds surfaced by this core
    (section 6.4). *)
Inductive MigrationHazardType : Type :=
  | MigrationHazardTypeDeletesData
  | MigrationHazardTypeHasUntrackableDependencies.

#[global] Instance MigrationHazardType_eq_dec : EqDecision MigrationHazardType.
Proof. solve_decision. Defined.

(** The field [Type] is written [Type_]. *)
Record MigrationHazard : Type := {
  Type_ : MigrationHazardType;
  Message : string;
}.

(** Modelled from the spec: a statement is its DDL, two timeouts and its
    hazards (section 3.4). *)
Record Statement : Type := {
  DDL : string;
  Timeout : Duration;
  LockTimeout : Duration;
  Hazards : list MigrationHazard;
}.

Inductive diffType : Type :=
  | diffTypeAddAlter
  | diffTypeDelete.

#[global] Instance diffType_eq_dec : EqDecision diffType.
Proof. solve_decision. Defined.

(** Modelled from the spec: a vertex id is the triple (kind tag,
    fully-qualified escaped name, diff kind) of section 3.4. *)
Record sqlVertexId : Type := {
  objType : string;
  objName : string;
  vertexDiffType : diffType;
}.

#[global] Instance sqlVertexId_eq_dec : EqDecision sqlVertexId.
Proof. solve_decision. Defined.

Definition buildSchemaObjVertexId (objType : string) (id : string)
    (diffType : diffType) : sqlVertexId :=
  {| objType := objType; objName := id; vertexDiffType := diffType |}.

(** Modelled from the spec: an edge [(source, target)] means that [source]
    must run strictly before [target] (section 3.4). *)
Record dependency : Type := {
  source : sqlVertexId;
  target : sqlVertexId;
}.

#[global] Instance dependency_eq_dec : EqDecision dependency.
Proof. solve_decision. Defined.

(** Modelled from the spec: [mustRun(a).before(b)] is the edge from [a] to
    [b], [mustRun(a).after(b)] the edge from [b] to [a]. *)
Record dependencyBuilder : Type := { valObj : sqlVertexId }.

Definition mustRun (id : sqlVertexId) : dependencyBuilder := {| valObj := id |}.

Definition before (d : dependencyBuilder) (id : sqlVertexId) : dependency :=
  {| source := valObj d; target := id |}.

Definition after (d : dependencyBuilder) (id : sqlVertexId) : dependency :=
  {| source := id; target := valObj d |}.

(** The [old] and [new] side of one diff entry. *)
Record oldAndNew (S : Type) : Type := {
  old : S;
  new : S;
}.
Arguments old {S} _.
Arguments new {S} _.

(** The generators read only the two sides of a diff. *)
Definition viewDiff : Type := oldAndNew View.
Definition functionDiff : Type := oldAndNew Function.
Definition eventTriggerDiff : Type := oldAndNew EventTrigger.
Definition tableDiff : Type := oldAndNew Table.

Definition buildViewVertexId (name : SchemaQualifiedName)
    (diffType : diffType) : sqlVertexId :=
  buildSchemaObjVertexId "view" (GetFQEscapedName name) diffType.

Definition buildFunctionVertexId (name : SchemaQualifiedName)
    (diffType : diffType) : sqlVertexId :=
  buildSchemaObjVertexId "function" (GetFQEscapedName name) diffType.

Definition buildEventTriggerVertexId (eventTrigger : EventTrigger)
    (diffType : diffType) : sqlVertexId :=
  buildSchemaObjVertexId "event_trigger" (Name eventTrigger) diffType.

(** The loop of [contains], which returns at the first match. *)
Fixpoint containsLoop (names : list SchemaQualifiedName)
    (name : SchemaQualifiedName) : bool :=
  match names with
  | [] => false
  | n :: rest =>
      if decide (GetFQEscapedName n = GetFQEscapedName name) then true
      else containsLoop rest name
  end.

Definition contains (names : slice SchemaQualifiedName)
    (name : SchemaQualifiedName) : bool :=
  containsLoop (elems names) name.

(** *** The view generator *)

Module viewSQLVertexGenerator.
Section generator.
Context `{Defaults}.

Record t : Type := {
  tablesInNewSchemaByName : gmap string Table;
  viewsInNewSchemaByName : gmap string View;
}.

Definition Add (v : t) (view : View) : result (list Statement) :=
  let stmt :=
    "CREATE VIEW " +:+ GetFQEscapedName (View_SchemaQualifiedName view)
      +:+ " AS " +:+ Definition_ view in
  Ok [ {| DDL := stmt;
          Timeout := statementTimeoutDefault;
          LockTimeout := lockTimeoutDefault;
          Hazards := [] |} ].

Definition Delete (v : t) (view : View) : result (list Statement) :=
  Ok [ {| DDL := "DROP VIEW " +:+ GetFQEscapedName (View_SchemaQualifiedName view);
          Timeout := statementTimeoutDefault;
          LockTimeout := lockTimeoutDefault;
          Hazards := [ {| Type_ := MigrationHazardTypeDeletesData;
                          Message := "Deletes the view" |} ] |} ].

Definition Alter (v : t) (diff : viewDiff) : result (list Statement) :=
  if decide (old diff = new diff) then Ok []
  else
    let stmts := [] in
    try (Delete v (old diff)) (wrap "generating drop view statements")
      (fun dropStmts =>
    let stmts := stmts ++ dropStmts in
    try (Add v (new diff)) (wrap "generating create view statements")
      (fun createStmts =>
    let stmts := stmts ++ createStmts in
    Ok stmts)).

Definition GetSQLVertexId (v : t) (view : View) (diffType : diffType)
    : sqlVertexId :=
  buildViewVertexId (View_SchemaQualifiedName view) diffType.

Definition GetAddAlterDependencies (v : t) (newView oldView : View)
    : result (list dependency) :=
  let deps := [] in
  let deps :=
    range (elems (View_DependsOnTables newView)) (fun deps depTable =>
      append deps
        (after (mustRun (GetSQLVertexId v newView diffTypeAddAlter))
           (buildSchemaObjVertexId "table" (GetFQEscapedName depTable)
              diffTypeAddAlter))) deps in
  let deps :=
    range (elems (DependsOnViews newView)) (fun deps depView =>
      if decide (GetFQEscapedName depView
                 <> GetFQEscapedName (View_SchemaQualifiedName newView))
      then append deps
        (after (mustRun (GetSQLVertexId v newView diffTypeAddAlter))
           (buildViewVertexId depView diffTypeAddAlter))
      else deps) deps in
  let deps :=
    if decide (oldView <> zeroView) then
      let deps :=
        range (elems (View_DependsOnTables oldView)) (fun deps depTable =>
          if negb (contains (View_DependsOnTables newView) depTable)
          then append deps
            (before (mustRun (GetSQLVertexId v newView diffTypeAddAlter))
               (buildSchemaObjVertexId "table" (GetFQEscapedName depTable)
                  diffTypeDelete))
          else deps) deps in
      range (elems (DependsOnViews oldView)) (fun deps depView =>
        if negb (contains (DependsOnViews newView) depView)
        then append deps
          (before (mustRun (GetSQLVertexId v newView diffTypeAddAlter))
             (buildViewVertexId depView diffTypeDelete))
        else deps) deps
    else deps in
  Ok deps.

Definition GetDeleteDependencies (v : t) (view : View)
    : result (list dependency) :=
  let deps := [] in
  let deps :=
    range (elems (View_DependsOnTables view)) (fun deps depTable =>
      append deps
        (before (mustRun (GetSQLVertexId v view diffTypeDelete))
           (buildSchemaObjVertexId "table" (GetFQEscapedName depTable)
              diffTypeDelete))) deps in
  let deps :=
    range (elems (DependsOnViews view)) (fun deps depView =>
      if decide (GetFQEscapedName depView
                 <> GetFQEscapedName (View_SchemaQualifiedName view))
      then append deps
        (before (mustRun (GetSQLVertexId v view diffTypeDelete))
           (buildViewVertexId depView diffTypeDelete))
      else deps) deps in
  Ok deps.

End generator.
End viewSQLVertexGenerator.

(** *** The function generator *)

Module functionSQLVertexGenerator.
Section generator.
Context `{Defaults}.

Record t : Type := {
  functionsInNewSchemaByName : gmap string Function;
  tableDiffs : list tableDiff;
}.

Definition canFunctionDependenciesBeTracked (function : Function) : bool :=
  bool_decide (Language function = "sql").

Definition addHazardMessage : string :=
  "Dependencies, i.e. other functions used in the function body, of non-sql functions cannot be tracked. " +:+
  "As a result, we cannot guarantee that function dependencies are ordered properly relative to this " +:+
  "statement. For adds, this means you need to ensure that all functions this function depends on are " +:+
  "created/altered before this statement.".

Definition deleteHazardMessage : string :=
  "Dependencies, i.e. other functions used in the function body, of non-sql functions cannot be " +:+
  "tracked. As a result, we cannot guarantee that function dependencies are ordered properly relative to " +:+
  "this statement. For drops, this means you need to ensure that all functions this function depends on " +:+
  "are dropped after this statement.".

Definition Add (f : t) (function : Function) : result (list Statement) :=
  let hazards := [] in
  let hazards :=
    if negb (canFunctionDependenciesBeTracked function)
    then append hazards
      {| Type_ := MigrationHazardTypeHasUntrackableDependencies;
         Message := addHazardMessage |}
    else hazards in
  Ok [ {| DDL := FunctionDef function;
          Timeout := statementTimeoutDefault;
          LockTimeout := lockTimeoutDefault;
          Hazards := hazards |} ].

Definition Delete (f : t) (function : Function) : result (list Statement) :=
  let hazards := [] in
  let hazards :=
    if negb (canFunctionDependenciesBeTracked function)
    then append hazards
      {| Type_ := MigrationHazardTypeHasUntrackableDependencies;
         Message := deleteHazardMessage |}
    else hazards in
  Ok [ {| DDL := "DROP FUNCTION "
                   +:+ GetFQEscapedName (Function_SchemaQualifiedName function);
          Timeout := statementTimeoutDefault;
          LockTimeout := lockTimeoutDefault;
          Hazards := hazards |} ].

Definition Alter (f : t) (diff : functionDiff) : result (list Statement) :=
  if decide (old diff = new diff) then Ok []
  else Add f (new diff).

Definition GetSQLVertexId (f : t) (function : Function) (diffType : diffType)
    : sqlVertexId :=
  buildFunctionVertexId (Function_SchemaQualifiedName function) diffType.

(** The inner loop over the old table's columns, which breaks at the first
    column of the given name; the result is the final value of [found]. *)
Fixpoint columnFound (columns : list Column) (columnName : string) : bool :=
  match columns with
  | [] => false
  | oldCol :: rest =>
      if decide (Column_Name oldCol = columnName) then true
      else columnFound rest columnName
  end.

(** The body of the loop over [f.tableDiffs] for one column reference. *)
Definition columnRefBody (f : t) (newFunction : Function)
    (colRef : TableColumnRef) (deps : list dependency) (tableDiff : tableDiff)
    : list dependency :=
  if bool_decide (GetName (Table_SchemaQualifiedName (old tableDiff))
                  = TableName colRef)
     || bool_decide (GetName (Table_SchemaQualifiedName (new tableDiff))
                     = TableName colRef)
  then
    let isNewColumn := false in
    let isNewColumn :=
      if decide (old tableDiff <> zeroTable) then
        let found :=
          columnFound (elems (Columns (old tableDiff))) (ColumnName colRef) in
        if negb found then true else isNewColumn
      else isNewColumn in
    if isNewColumn then
      let tableName :=
        GetFQEscapedName (Table_SchemaQualifiedName (new tableDiff)) in
      append deps
        (after (mustRun (GetSQLVertexId f newFunction diffTypeAddAlter))
           (buildSchemaObjVertexId "table" tableName diffTypeAddAlter))
    else deps
  else deps.

(** The loop over [newFunction.ReferencedColumns]. *)
Definition referencedColumnsLoop (f : t) (newFunction : Function)
    (deps : list dependency) : list dependency :=
  range (elems (ReferencedColumns newFunction)) (fun deps colRef =>
    range (tableDiffs f) (columnRefBody f newFunction colRef) deps) deps.

Definition GetAddAlterDependencies (f : t) (newFunction oldFunction : Function)
    : result (list dependency) :=
  let deps := [] in
  let deps :=
    range (elems (DependsOnFunctions newFunction)) (fun deps depFunction =>
      append deps
        (after (mustRun (GetSQLVertexId f newFunction diffTypeAddAlter))
           (buildFunctionVertexId depFunction diffTypeAddAlter))) deps in
  let deps :=
    range (elems (Function_DependsOnTables newFunction)) (fun deps depTable =>
      append deps
        (after (mustRun (GetSQLVertexId f newFunction diffTypeAddAlter))
           (buildSchemaObjVertexId "table" (GetFQEscapedName depTable)
              diffTypeAddAlter))) deps in
  let deps := referencedColumnsLoop f newFunction deps in
  let deps :=
    if decide (oldFunction <> zeroFunction) then
      range (elems (DependsOnFunctions oldFunction)) (fun deps depFunction =>
        append deps
          (before (mustRun (GetSQLVertexId f newFunction diffTypeAddAlter))
             (buildFunctionVertexId depFunction diffTypeDelete))) deps
    else deps in
  Ok deps.

Definition GetDeleteDependencies (f : t) (function : Function)
    : result (list dependency) :=
  let deps := [] in
  let deps :=
    range (elems (DependsOnFunctions function)) (fun deps depFunction =>
      append deps
        (before (mustRun (GetSQLVertexId f function diffTypeDelete))
           (buildFunctionVertexId depFunction diffTypeDelete))) deps in
  Ok deps.

End generator.
End functionSQLVertexGenerator.

(** *** The event-trigger generator *)

Module eventTriggerSQLVertexGenerator.
Section generator.
Context `{Defaults}.

Record t : Type := {
  newEventTriggersByName : gmap string EventTrigger;
  oldEventTriggersByName : gmap string EventTrigger;
}.

(** [fmt.Sprintf] with the format ['%s'] on the tag with its single quotes
    replaced. *)
Definition quoteTag (tag : string) : string :=
  "'" +:+ ReplaceAll tag squote "''" +:+ "'".

Definition Add (et : t) (e : EventTrigger) : result (list Statement) :=
  let createStmt :=
    "CREATE EVENT TRIGGER " +:+ EscapeIdentifier (Name e)
      +:+ " ON " +:+ Event e in
  let createStmt :=
    if decide (0 < len (Tags e)) then
      (* quotedTags[i] is the quoted i-th tag *)
      let quotedTags := map quoteTag (elems (Tags e)) in
      createStmt +:+
        (newline +:+ "    WHEN TAG IN (" +:+ Join quotedTags ", " +:+ ")")
    else createStmt in
  let createStmt :=
    createStmt +:+
      (newline +:+ "    EXECUTE FUNCTION " +:+ GetFQEscapedName (Function_ e)
         +:+ "();") in
  Ok [ {| DDL := createStmt;
          Timeout := statementTimeoutDefault;
          LockTimeout := lockTimeoutDefault;
          Hazards := [] |} ].

Definition Delete (et : t) (e : EventTrigger) : result (list Statement) :=
  Ok [ {| DDL := "DROP EVENT TRIGGER IF EXISTS " +:+ EscapeIdentifier (Name e);
          Timeout := statementTimeoutDefault;
          LockTimeout := lockTimeoutDefault;
          Hazards := [] |} ].

Definition Alter (et : t) (diff : eventTriggerDiff) : result (list Statement) :=
  if decide (old diff = new diff) then Ok []
  else
    let stmts := [] in
    try (Delete et (old diff)) id (fun dropStmts =>
    let stmts := stmts ++ dropStmts in
    try (Add et (new diff)) id (fun createStmts =>
    let stmts := stmts ++ createStmts in
    Ok stmts)).

Definition GetSQLVertexId (et : t) (eventTrigger : EventTrigger)
    (diffType : diffType) : sqlVertexId :=
  buildEventTriggerVertexId eventTrigger diffType.

Definition GetAddAlterDependencies (et : t) (newET oldET : EventTrigger)
    : result (list dependency) :=
  let deps := [] in
  let deps :=
    append deps
      (after (mustRun (GetSQLVertexId et newET diffTypeAddAlter))
         (buildFunctionVertexId (Function_ newET) diffTypeAddAlter)) in
  Ok deps.

Definition GetDeleteDependencies (et : t) (eventTrigger : EventTrigger)
    : result (list dependency) :=
  let deps := [] in
  let deps :=
    append deps
      (before (mustRun (GetSQLVertexId et eventTrigger diffTypeDelete))
         (buildFunctionVertexId (Function_ eventTrigger) diffTypeDelete)) in
  Ok deps.

(** The constructor: both maps start empty and every trigger of the list is
    stored under its name, in list order. *)
Definition newEventTriggerSQLVertexGenerator
    (oldEventTriggers newEventTriggers : slice EventTrigger) : t :=
  let oldEventTriggersByName :=
    range (elems oldEventTriggers) (fun m et => <[Name et := et]> m)
      (∅ : gmap string EventTrigger) in
  let newEventTriggersByName :=
    range (elems newEventTriggers) (fun m et => <[Name et := et]> m)
      (∅ : gmap string EventTrigger) in
  {| oldEventTriggersByName := oldEventTriggersByName;
     newEventTriggersByName := newEventTriggersByName |}.

End generator.
End eventTriggerSQLVertexGenerator.

(** *** The generator interface *)

(** The operations every generator provides (section 4.2), for a generator
    [G] of objects [S] with diff entries [D]. *)
Class legacySqlVertexGenerator (G S D : Type) : Type := {
  Add : G -> S -> result (list Statement);
  Delete : G -> S -> result (list Statement);
  Alter : G -> D -> result (list Statement);
  GetSQLVertexId : G -> S -> diffType -> sqlVertexId;
  GetAddAlterDependencies : G -> S -> S -> result (list dependency);
  GetDeleteDependencies : G -> S -> result (list dependency);
}.

#[global] Instance viewGenerator `{Defaults}
    : legacySqlVertexGenerator viewSQLVertexGenerator.t View viewDiff := {
  Add := viewSQLVertexGenerator.Add;
  Delete := viewSQLVertexGenerator.Delete;
  Alter := viewSQLVertexGenerator.Alter;
  GetSQLVertexId := viewSQLVertexGenerator.GetSQLVertexId;
  GetAddAlterDependencies := viewSQLVertexGenerator.GetAddAlterDependencies;
  GetDeleteDependencies := viewSQLVertexGenerator.GetDeleteDependencies;
}.

#[global] Instance functionGenerator `{Defaults}
    : legacySqlVertexGenerator functionSQLVertexGenerator.t Function
        functionDiff := {
  Add := functionSQLVertexGenerator.Add;
  Delete := functionSQLVertexGenerator.Delete;
  Alter := functionSQLVertexGenerator.Alter;
  GetSQLVertexId := functionSQLVertexGenerator.GetSQLVertexId;
  GetAddAlterDependencies := functionSQLVertexGenerator.GetAddAlterDependencies;
  GetDeleteDependencies := functionSQLVertexGenerator.GetDeleteDependencies;
}.

#[global] Instance eventTriggerGenerator `{Defaults}
    : legacySqlVertexGenerator eventTriggerSQLVertexGenerator.t EventTrigger
        eventTriggerDiff := {
  Add := eventTriggerSQLVertexGenerator.Add;
  Delete := eventTriggerSQLVertexGenerator.Delete;
  Alter := eventTriggerSQLVertexGenerator.Alter;
  GetSQLVertexId := eventTriggerSQLVertexGenerator.GetSQLVertexId;
  GetAddAlterDependencies :=
    eventTriggerSQLVertexGenerator.GetAddAlterDependencies;
  GetDeleteDependencies := eventTriggerSQLVertexGenerator.GetDeleteDependencies;
}.

(** Every operation of a generator returns without an error. *)
Definition neverFails {G S D : Type} `{legacySqlVertexGenerator G S D} : Prop :=
  forall (g : G) (s s' : S) (d : D),
    is_Ok (Add g s) /\ is_Ok (Delete g s) /\ is_Ok (Alter g d) /\
    is_Ok (GetAddAlterDependencies g s s') /\
    is_Ok (GetDeleteDependencies g s).

End diff.

(** ** Vocabulary of the specification *)

Module spec.
Import schema diff.

(** A statement carries a hazard of the given kind. *)
Definition carries (kind : MigrationHazardType) (s : Statement) : Prop :=
  exists h, h ∈ Hazards s /\ Type_ h = kind.

(** A statement that drops a view, or a function. *)
Definition isDropView (s : Statement) : bool := String.prefix "DROP VIEW " (DDL s).
Definition isDropFunction (s : Statement) : bool :=
  String.prefix "DROP FUNCTION " (DDL s).

(** The stored text of a function is a CREATE OR REPLACE FUNCTION. *)
Definition isCreateOrReplace (def : string) : bool :=
  String.prefix "CREATE OR REPLACE FUNCTION" def.

(** [AddAlter(x)] and [Delete(x)] for tables, views and functions named by a
    qualified name, and for event triggers. *)
Definition tableVertex (name : SchemaQualifiedName) (k : diffType) : sqlVertexId :=
  {| objType := "table"; objName := GetFQEscapedName name; vertexDiffType := k |}.
Definition viewVertex (name : SchemaQualifiedName) (k : diffType) : sqlVertexId :=
  {| objType := "view"; objName := GetFQEscapedName name; vertexDiffType := k |}.
Definition functionVertex (name : SchemaQualifiedName) (k : diffType) : sqlVertexId :=
  {| objType := "function"; objName := GetFQEscapedName name; vertexDiffType := k |}.
Definition eventTriggerVertex (e : EventTrigger) (k : diffType) : sqlVertexId :=
  {| objType := "event_trigger"; objName := Name e; vertexDiffType := k |}.

(** The edge "[u] must run strictly before [v]". *)
Definition edge (u v : sqlVertexId) : dependency := {| source := u; target := v |}.

(** A name is listed in a dependency list: names are identified by their
    fully-qualified escaped form (section 3.1). *)
Definition listed (names : slice SchemaQualifiedName)
    (name : SchemaQualifiedName) : Prop :=
  exists n, n ∈ elems names /\ GetFQEscapedName n = GetFQEscapedName name.

(** A table has a column of the given name. *)
Definition hasColumn (t : Table) (columnName : string) : Prop :=
  exists c, c ∈ elems (Columns t) /\ Column_Name c = columnName.

(** A tag as a single-quoted literal, each single quote of the tag written
    twice. *)
Definition doubled (c : ascii) : list ascii :=
  if Ascii.eqb c squote then [squote; squote] else [c].

Definition quotedLiteral (tag : string) : string :=
  string_of_list_ascii
    ([squote] ++ (list_ascii_of_string tag ≫= doubled) ++ [squote]).

(** The comma-separated literals. *)
Fixpoint commaSeparated (literals : list string) : string :=
  match literals with
  | [] => EmptyString
  | l :: rest =>
      match rest with
      | [] => l
      | _ :: _ => l +:+ ", " +:+ commaSeparated rest
      end
  end.

(** The optional WHEN clause of CREATE EVENT TRIGGER: present only for a
    non-empty tag list. *)
Definition whenClause (tags : list string) : string :=
  match tags with
  | [] => EmptyString
  | _ :: _ =>
      newline +:+ "    WHEN TAG IN ("
        +:+ commaSeparated (map quotedLiteral tags) +:+ ")"
  end.

(** The text of CREATE EVENT TRIGGER of section 6.3. *)
Definition createEventTriggerDDL (e : EventTrigger) : string :=
  "CREATE EVENT TRIGGER " +:+ EscapeIdentifier (Name e) +:+ " ON " +:+ Event e
    +:+ whenClause (elems (Tags e))
    +:+ newline +:+ "    EXECUTE FUNCTION " +:+ GetFQEscapedName (Function_ e)
    +:+ "();".

(** The inverse of doubling: every pair of single quotes becomes one. *)
Fixpoint undouble (s : string) : string :=
  match s with
  | String c (String c' rest as tail) =>
      if Ascii.eqb c squote && Ascii.eqb c' squote
      then String squote (undouble rest)
      else String c (undouble tail)
  | _ => s
  end.

(** *** The edges of a view, by the list they come from *)

(** The edges a view's AddAlter vertex gets from the new view's lists ... *)
Definition viewNewEdges (newView : View) : list dependency :=
  map (fun T => edge (tableVertex T diffTypeAddAlter)
                  (viewVertex (View_SchemaQualifiedName newView) diffTypeAddAlter))
      (elems (View_DependsOnTables newView))
  ++ (elems (DependsOnViews newView) ≫= fun W =>
        if bool_decide (GetFQEscapedName W
                        <> GetFQEscapedName (View_SchemaQualifiedName newView))
        then [edge (viewVertex W diffTypeAddAlter)
                (viewVertex (View_SchemaQualifiedName newView) diffTypeAddAlter)]
        else []).

(** ... and from the old view's lists. *)
Definition viewOldEdges (newView oldView : View) : list dependency :=
  (elems (View_DependsOnTables oldView) ≫= fun T =>
     if negb (contains (View_DependsOnTables newView) T)
     then [edge (viewVertex (View_SchemaQualifiedName newView) diffTypeAddAlter)
             (tableVertex T diffTypeDelete)]
     else [])
  ++ (elems (DependsOnViews oldView) ≫= fun W =>
        if negb (contains (DependsOnViews newView) W)
        then [edge (viewVertex (View_SchemaQualifiedName newView) diffTypeAddAlter)
                (viewVertex W diffTypeDelete)]
        else []).

Definition viewDeleteEdges (view : View) : list dependency :=
  map (fun T => edge (viewVertex (View_SchemaQualifiedName view) diffTypeDelete)
                  (tableVertex T diffTypeDelete))
      (elems (View_DependsOnTables view))
  ++ (elems (DependsOnViews view) ≫= fun W =>
        if bool_decide (GetFQEscapedName W
                        <> GetFQEscapedName (View_SchemaQualifiedName view))
        then [edge (viewVertex (View_SchemaQualifiedName view) diffTypeDelete)
                (viewVertex W diffTypeDelete)]
        else []).

(** A view without the entries of its list of views that name the view
    itself. *)
Definition withoutSelfReferences (view : View) : View :=
  {| View_SchemaQualifiedName := View_SchemaQualifiedName view;
     Definition_ := Definition_ view;
     View_DependsOnTables := View_DependsOnTables view;
     DependsOnViews :=
       match DependsOnViews view with
       | None => None
       | Some views =>
           Some (filter (fun W => GetFQEscapedName W
                           <> GetFQEscapedName (View_SchemaQualifiedName view))
                   views)
       end |}.

(** *** The edges of a function, by the list they come from *)

(** The table diff [td] alters a table named as the reference names it and
    the column of the reference is not among the old table's columns. *)
Definition addsColumn (td : tableDiff) (ref : TableColumnRef) : Prop :=
  (GetName (Table_SchemaQualifiedName (old td)) = TableName ref
   \/ GetName (Table_SchemaQualifiedName (new td)) = TableName ref)
  /\ old td <> zeroTable
  /\ ~ hasColumn (old td) (ColumnName ref).

Definition addsColumnb (td : tableDiff) (ref : TableColumnRef) : bool :=
  (bool_decide (GetName (Table_SchemaQualifiedName (old td)) = TableName ref)
   || bool_decide (GetName (Table_SchemaQualifiedName (new td)) = TableName ref))
  && bool_decide (old td <> zeroTable)
  && negb (functionSQLVertexGenerator.columnFound
             (elems (Columns (old td))) (ColumnName ref)).

Definition columnEdge (newFunction : Function) (td : tableDiff) : dependency :=
  edge (tableVertex (Table_SchemaQualifiedName (new td)) diffTypeAddAlter)
    (functionVertex (Function_SchemaQualifiedName newFunction) diffTypeAddAlter).

Definition columnEdges (tds : list tableDiff) (newFunction : Function)
    : list dependency :=
  elems (ReferencedColumns newFunction) ≫= fun ref =>
    tds ≫= fun td =>
      if addsColumnb td ref then [columnEdge newFunction td] else [].

Definition functionNewEdges (newFunction : Function) : list dependency :=
  map (fun G => edge (functionVertex G diffTypeAddAlter)
                  (functionVertex (Function_SchemaQualifiedName newFunction)
                     diffTypeAddAlter))
      (elems (DependsOnFunctions newFunction))
  ++ map (fun T => edge (tableVertex T diffTypeAddAlter)
                     (functionVertex (Function_SchemaQualifiedName newFunction)
                        diffTypeAddAlter))
         (elems (Function_DependsOnTables newFunction)).

Definition functionOldEdges (newFunction oldFunction : Function)
    : list dependency :=
  map (fun G => edge (functionVertex (Function_SchemaQualifiedName newFunction)
                        diffTypeAddAlter)
                  (functionVertex G diffTypeDelete))
      (elems (DependsOnFunctions oldFunction)).

End spec.

(** ** Concrete inputs: the scenarios of section 8.2 and of the tests *)

Module scenario.
Import schema diff.

Definition defaults : Defaults :=
  {| statementTimeoutDefault := 3000000000%Z;
     lockTimeoutDefault := 3000000000%Z |}.

(** The object [n] of schema public. *)
Definition public (n : string) : SchemaQualifiedName :=
  {| SchemaName := "public"; EscapedName := EscapeIdentifier n |}.

Definition intColumn (n : string) : Column :=
  {| Column_Name := n; Column_Type := "integer"; Column_IsNullable := true;
     Column_Default := EmptyString |}.

(** Scenario 6: table t(a int) becomes t(a int, b int), and the new function
    f references column b of t. The column reference names the table as the
    table's [GetName] does. *)
Definition t_old : Table :=
  {| Table_SchemaQualifiedName := public "t";
     Columns := Some [intColumn "a"]; Table_Constraints := None |}.

Definition t_new : Table :=
  {| Table_SchemaQualifiedName := public "t";
     Columns := Some [intColumn "a"; intColumn "b"];
     Table_Constraints := None |}.

Definition t_diff : tableDiff := {| old := t_old; new := t_new |}.

(** The same table when it is created by the migration. *)
Definition t_created : tableDiff := {| old := zeroTable; new := t_new |}.

Definition t_b : TableColumnRef :=
  {| TableName := GetName (public "t"); ColumnName := "b" |}.

Definition f : Function :=
  {| Function_SchemaQualifiedName := public "f()";
     FunctionDef := "CREATE OR REPLACE FUNCTION public.f() RETURNS integer LANGUAGE sql AS $$ SELECT t.b FROM t $$";
     Language := "sql";
     DependsOnFunctions := None;
     Function_DependsOnTables := None;
     ReferencedColumns := Some [t_b] |}.

Definition f_plpgsql : Function :=
  {| Function_SchemaQualifiedName := public "f()";
     FunctionDef := "CREATE OR REPLACE FUNCTION public.f() RETURNS integer LANGUAGE plpgsql AS $$ BEGIN RETURN 1; END $$";
     Language := "plpgsql";
     DependsOnFunctions := None;
     Function_DependsOnTables := None;
     ReferencedColumns := None |}.

Definition functionGen (tds : list tableDiff) : functionSQLVertexGenerator.t :=
  {| functionSQLVertexGenerator.functionsInNewSchemaByName := ∅;
     functionSQLVertexGenerator.tableDiffs := tds |}.

(** Scenario 2: the view expensive_products over products, whose body
    changes. *)
Definition expensive_100 : View :=
  {| View_SchemaQualifiedName := public "expensive_products";
     Definition_ := "SELECT * FROM products WHERE price > 100";
     View_DependsOnTables := Some [public "products"];
     DependsOnViews := Some [] |}.

Definition expensive_200 : View :=
  {| View_SchemaQualifiedName := public "expensive_products";
     Definition_ := "SELECT * FROM products WHERE price > 200";
     View_DependsOnTables := Some [public "products"];
     DependsOnViews := Some [] |}.

(** Scenario 3: quarterly_sales over monthly_sales over sales, and a version
    of quarterly_sales that reads sales directly. *)
Definition quarterly_sales : View :=
  {| View_SchemaQualifiedName := public "quarterly_sales";
     Definition_ := "SELECT quarter, SUM(total) FROM monthly_sales GROUP BY quarter";
     View_DependsOnTables := Some [];
     DependsOnViews := Some [public "monthly_sales"] |}.

Definition quarterly_sales_direct : View :=
  {| View_SchemaQualifiedName := public "quarterly_sales";
     Definition_ := "SELECT quarter, SUM(amount) FROM sales GROUP BY quarter";
     View_DependsOnTables := Some [public "sales"];
     DependsOnViews := Some [] |}.

(** A view that lists itself among the views it depends on. *)
Definition recursive_view : View :=
  {| View_SchemaQualifiedName := public "r";
     Definition_ := "SELECT * FROM r";
     View_DependsOnTables := Some [public "sales"];
     DependsOnViews := Some [public "r"; public "monthly_sales"] |}.

Definition viewGen : viewSQLVertexGenerator.t :=
  {| viewSQLVertexGenerator.tablesInNewSchemaByName := ∅;
     viewSQLVertexGenerator.viewsInNewSchemaByName := ∅ |}.

(** The event trigger of TestEventTriggerSQLVertexGenerator_Add, and one
    whose tag holds a single quote. *)
Definition log_ddl : EventTrigger :=
  {| Name := "log_ddl"; Event := "ddl_command_end";
     Function_ := public "log_ddl_command";
     Enabled := "O";
     Tags := Some ["CREATE TABLE"; "ALTER TABLE"] |}.

Definition log_quoted : EventTrigger :=
  {| Name := "log_ddl"; Event := "ddl_command_end";
     Function_ := public "log_ddl_command";
     Enabled := "O";
     Tags := Some ["it's"] |}.

Definition eventTriggerGen : eventTriggerSQLVertexGenerator.t :=
  {| eventTriggerSQLVertexGenerator.newEventTriggersByName := ∅;
     eventTriggerSQLVertexGenerator.oldEventTriggersByName := ∅ |}.

End scenario.

(** ** Vocabulary of the further properties *)

Module further.
Import schema diff spec.

(** A statement that some operation of the generator returns. *)
Definition emits {G S D : Type} `{legacySqlVertexGenerator G S D}
    (g : G) (st : Statement) : Prop :=
  exists stmts, st ∈ stmts
    /\ ((exists s, Add g s = Ok stmts) \/ (exists s, Delete g s = Ok stmts)
        \/ (exists d, Alter g d = Ok stmts)).

Definition usesDefaultTimeouts `{Defaults} (st : Statement) : Prop :=
  Timeout st = statementTimeoutDefault /\ LockTimeout st = lockTimeoutDefault.

(** An edge of the AddAlter vertex [self]: it runs an AddAlter vertex before
    [self], or [self] before a Delete vertex. *)
Definition anchoredAddAlter (self : sqlVertexId) (d : dependency) : Prop :=
  (target d = self /\ vertexDiffType (source d) = diffTypeAddAlter)
  \/ (source d = self /\ vertexDiffType (target d) = diffTypeDelete).

(** An edge of the Delete vertex [self]: it runs [self] before a Delete
    vertex. *)
Definition anchoredDelete (self : sqlVertexId) (d : dependency) : Prop :=
  source d = self /\ vertexDiffType (target d) = diffTypeDelete.

(** An edge seen from the other side of the migration: the two ends swapped
    and AddAlter exchanged with Delete. *)
Definition otherDiffType (k : diffType) : diffType :=
  match k with
  | diffTypeAddAlter => diffTypeDelete
  | diffTypeDelete => diffTypeAddAlter
  end.

Definition otherVertex (id : sqlVertexId) : sqlVertexId :=
  {| objType := objType id; objName := objName id;
     vertexDiffType := otherDiffType (vertexDiffType id) |}.

Definition mirror (d : dependency) : dependency :=
  {| source := otherVertex (target d); target := otherVertex (source d) |}.

(** Reading a list of single-quoted SQL literals separated by commas and
    spaces. Inside a literal two single quotes stand for one; a single quote
    followed by anything else ends the literal. *)
Inductive readState : Type :=
  | Outside
  | Inside (literal : string)
  | AfterQuote (literal : string).

Definition isSeparator (c : ascii) : bool :=
  Ascii.eqb c (ascii_of_nat 44) || Ascii.eqb c (ascii_of_nat 32).

Definition snoc (s : string) (c : ascii) : string :=
  s +:+ String c EmptyString.

Fixpoint readLiterals (st : readState) (read : list string) (s : string)
    : option (list string) :=
  match s with
  | EmptyString =>
      match st with
      | Outside => Some read
      | Inside _ => None
      | AfterQuote literal => Some (read ++ [literal])
      end
  | String c rest =>
      match st with
      | Outside =>
          if Ascii.eqb c squote then readLiterals (Inside EmptyString) read rest
          else if isSeparator c then readLiterals Outside read rest
          else None
      | Inside literal =>
          if Ascii.eqb c squote then readLiterals (AfterQuote literal) read rest
          else readLiterals (Inside (snoc literal c)) read rest
      | AfterQuote literal =>
          if Ascii.eqb c squote
          then readLiterals (Inside (snoc literal squote)) read rest
          else if isSeparator c
          then readLiterals Outside (read ++ [literal]) rest
          else None
      end
  end.

(** The number of single quotes of a string. *)
Fixpoint countQuotes (s : string) : nat :=
  match s with
  | EmptyString => 0
  | String c rest =>
      (if Ascii.eqb c squote then 1 else 0) + countQuotes rest
  end.

(** The map [m] indexes the list [l] by name: every entry is a trigger of
    the list stored under its own name, every trigger of the list has an
    entry under its name, and the entry of a name is the last trigger of
    that name in the list. *)
Definition indexes (m : gmap string EventTrigger) (l : list EventTrigger)
    : Prop :=
  (forall k et, m !! k = Some et -> Name et = k /\ et ∈ l)
  /\ (forall et, et ∈ l -> is_Some (m !! Name et))
  /\ (forall l1 et l2, l = l1 ++ et :: l2 ->
        (forall e, e ∈ l2 -> Name e <> Name et) ->
        m !! Name et = Some et).

(** The last trigger of the given name in a list. *)
Fixpoint lastNamed (name : string) (l : list EventTrigger)
    : option EventTrigger :=
  match l with
  | [] => None
  | et :: rest =>
      match lastNamed name rest with
      | Some et' => Some et'
      | None => if decide (Name et = name) then Some et else None
      end
  end.

(** Inputs of the further scenarios. *)
Definition log_ddl_disabled : EventTrigger :=
  {| Name := "log_ddl"; Event := "ddl_command_end";
     Function_ := scenario.public "log_ddl_command";
     Enabled := "D";
     Tags := Some ["CREATE TABLE"; "ALTER TABLE"] |}.

Definition audit : EventTrigger :=
  {| Name := "audit"; Event := "sql_drop";
     Function_ := scenario.public "audit_func";
     Enabled := "O";
     Tags := None |}.

(** A function that calls itself and another function. *)
Definition fact : Function :=
  {| Function_SchemaQualifiedName := scenario.public "fact(integer)";
     FunctionDef := "CREATE OR REPLACE FUNCTION public.fact(n integer) RETURNS integer LANGUAGE sql AS $$ SELECT CASE WHEN n < 2 THEN 1 ELSE n * fact(n - 1) END $$";
     Language := "sql";
     DependsOnFunctions :=
       Some [scenario.public "fact(integer)"; scenario.public "mul(integer)"];
     Function_DependsOnTables := Some [scenario.public "numbers"];
     ReferencedColumns := None |}.

(** A function that reads column a of t, which the old table has. *)
Definition reads_a : Function :=
  {| Function_SchemaQualifiedName := scenario.public "g()";
     FunctionDef := "CREATE OR REPLACE FUNCTION public.g() RETURNS integer LANGUAGE sql AS $$ SELECT t.a FROM t $$";
     Language := "sql";
     DependsOnFunctions := None;
     Function_DependsOnTables := None;
     ReferencedColumns :=
       Some [ {| TableName := GetName (scenario.public "t");
                 ColumnName := "a" |} ] |}.

(** The view r once it no longer reads itself. *)
Definition plain_r : View :=
  {| View_SchemaQualifiedName := scenario.public "r";
     Definition_ := "SELECT * FROM sales";
     View_DependsOnTables := Some [scenario.public "sales"];
     DependsOnViews := Some [] |}.

(** Scenario 6 with the reference to t.b as the tests of the column
    extractor write references: the bare table name. *)
Definition t_b_bare : TableColumnRef :=
  {| TableName := "t"; ColumnName := "b" |}.

Definition f_bare : Function :=
  {| Function_SchemaQualifiedName := scenario.public "f()";
     FunctionDef := FunctionDef scenario.f;
     Language := "sql";
     DependsOnFunctions := None;
     Function_DependsOnTables := None;
     ReferencedColumns := Some [t_b_bare] |}.

(** An earlier version of the view r, which lists itself as well. *)
Definition recursive_view_v1 : View :=
  {| View_SchemaQualifiedName := scenario.public "r";
     Definition_ := "SELECT 1 FROM r";
     View_DependsOnTables := Some [scenario.public "sales"];
     DependsOnViews :=
       Some [scenario.public "r"; scenario.public "monthly_sales"] |}.

(** The table t when the migration drops it. *)
Definition t_dropped : tableDiff :=
  {| old := scenario.t_old; new := zeroTable |}.

End further.

(** ** Loops that append *)

Section loops.
Context {A B : Type}.

(** A loop whose body appends to the state what [h] gives for the element
    appends the concatenation of all of them. *)
Lemma range_appends (body : list B -> A -> list B) (h : A -> list B)
    (xs : list A) (init : list B) :
  (forall deps x, body deps x = deps ++ h x) ->
  range xs body init = init ++ (xs ≫= h).
Proof.
  intros Hbody. unfold range. revert init.
  induction xs as [|x xs IH]; intros init; simpl.
  - by rewrite app_nil_r.
  - rewrite IH, Hbody, <- app_assoc. done.
Qed.

Lemma range_append_all (g : A -> B) (xs : list A) (init : list B) :
  range xs (fun deps x => append deps (g x)) init = init ++ map g xs.
Proof.
  rewrite (range_appends _ (fun x => [g x])); [|done].
  reflexivity.
Qed.

Lemma range_append_if (c : A -> bool) (g : A -> B) (xs : list A)
    (init : list B) :
  range xs (fun deps x => if c x then append deps (g x) else deps) init
  = init ++ (xs ≫= fun x => if c x then [g x] else []).
Proof.
  apply range_appends. intros deps x. destruct (c x); [done|].
  by rewrite app_nil_r.
Qed.

Lemma elem_of_bind_if (c : A -> bool) (g : A -> B) (xs : list A) (y : B) :
  y ∈ (xs ≫= fun x => if c x then [g x] else [])
  <-> exists x, x ∈ xs /\ c x = true /\ y = g x.
Proof.
  rewrite list_elem_of_bind. split.
  - intros (x & Hy & Hx). destruct (c x) eqn:Hc.
    + apply list_elem_of_singleton in Hy. eauto.
    + by apply elem_of_nil in Hy.
  - intros (x & Hx & Hc & ->). exists x. rewrite Hc.
    split; [by apply list_elem_of_singleton|done].
Qed.

Lemma bind_if_filter (P : A -> Prop) `{forall x, Decision (P x)} (g : A -> B)
    (xs : list A) :
  (filter P xs ≫= fun x => if bool_decide (P x) then [g x] else [])
  = (xs ≫= fun x => if bool_decide (P x) then [g x] else []).
Proof.
  induction xs as [|x xs IH]; [done|].
  rewrite filter_cons, bind_cons. destruct (decide (P x)) as [HP|HP].
  - by rewrite bind_cons, IH.
  - by rewrite IH, (bool_decide_eq_false_2 _ HP).
Qed.

End loops.

(** ** Strings *)

Lemma append_nil_l (s : string) : EmptyString +:+ s = s.
Proof. reflexivity. Qed.

Lemma append_cons (c : ascii) (a s : string) :
  String c a +:+ s = String c (a +:+ s).
Proof. reflexivity. Qed.

Lemma append_assoc (a b c : string) : (a +:+ b) +:+ c = a +:+ (b +:+ c).
Proof.
  induction a as [|x a IH]; [done|].
  by rewrite !append_cons, IH.
Qed.

Lemma string_of_list_ascii_app (l k : list ascii) :
  string_of_list_ascii (l ++ k)
  = string_of_list_ascii l +:+ string_of_list_ascii k.
Proof.
  induction l as [|x l IH]; [done|].
  simpl. by rewrite IH, append_cons.
Qed.

(** Replacing each single quote by two is doubling every single quote. *)
Lemma ReplaceAll_doubled (s : string) :
  ReplaceAll s squote "''"
  = string_of_list_ascii (list_ascii_of_string s ≫= spec.doubled).
Proof.
  induction s as [|c s IH]; [done|].
  cbn [ReplaceAll list_ascii_of_string].
  rewrite bind_cons, string_of_list_ascii_app, <- IH.
  unfold spec.doubled. destruct (Ascii.eqb c squote); done.
Qed.

(** Doubling loses nothing: the tag is recovered from its escaped form. *)
Lemma undouble_ReplaceAll (s : string) :
  spec.undouble (ReplaceAll s squote "''") = s.
Proof.
  induction s as [|c s IH]; [done|].
  simpl. destruct (Ascii.eqb c squote) eqn:Hc.
  - apply Ascii.eqb_eq in Hc. subst c.
    change ("''" +:+ ReplaceAll s squote "''")
      with (String squote (String squote (ReplaceAll s squote "''"))).
    simpl. by rewrite IH.
  - destruct (ReplaceAll s squote "''") as [|c' r] eqn:Hr.
    + simpl in IH. by subst s.
    + cbn [spec.undouble]. rewrite Hc. cbn [andb].
      f_equal. exact IH.
Qed.

Lemma Join_commaSeparated (l : list string) :
  Join l ", " = spec.commaSeparated l.
Proof.
  induction l as [|x l IH]; [done|].
  destruct l as [|y l]; [done|].
  change (Join (x :: y :: l) ", ") with (x +:+ ", " +:+ Join (y :: l) ", ").
  rewrite IH. done.
Qed.

(** ** What the loops of the generators compute *)

Section dependencies.
Import schema diff spec.
Context `{Defaults}.

Lemma contains_listed (names : slice SchemaQualifiedName)
    (name : SchemaQualifiedName) :
  contains names name = true <-> listed names name.
Proof.
  unfold contains, listed. induction (elems names) as [|n rest IH]; simpl.
  - split; [done|]. intros (n & Hn & _). by apply elem_of_nil in Hn.
  - destruct (decide (GetFQEscapedName n = GetFQEscapedName name)) as [Heq|Hne].
    + split; [|done]. intros _. exists n. split; [apply elem_of_cons; auto|done].
    + rewrite IH. split.
      * intros (m & Hm & Heq). exists m. split; [apply elem_of_cons; auto|done].
      * intros (m & Hm & Heq). apply elem_of_cons in Hm as [->|Hm]; [done|].
        by exists m.
Qed.

Lemma contains_not_listed (names : slice SchemaQualifiedName)
    (name : SchemaQualifiedName) :
  contains names name = false <-> ~ listed names name.
Proof.
  rewrite <- contains_listed. destruct (contains names name); split; done.
Qed.

Lemma columnFound_hasColumn (t : Table) (columnName : string) :
  functionSQLVertexGenerator.columnFound (elems (Columns t)) columnName = true
  <-> hasColumn t columnName.
Proof.
  unfold hasColumn. induction (elems (Columns t)) as [|c rest IH]; simpl.
  - split; [done|]. intros (c & Hc & _). by apply elem_of_nil in Hc.
  - destruct (decide (Column_Name c = columnName)) as [Heq|Hne].
    + split; [|done]. intros _. exists c. split; [apply elem_of_cons; auto|done].
    + rewrite IH. split.
      * intros (m & Hm & Heq). exists m. split; [apply elem_of_cons; auto|done].
      * intros (m & Hm & Heq). apply elem_of_cons in Hm as [->|Hm]; [done|].
        by exists m.
Qed.

Lemma view_otherViews_body (view : View)
    (mk : SchemaQualifiedName -> dependency)
    (deps : list dependency) (W : SchemaQualifiedName) :
  (if decide (GetFQEscapedName W
              <> GetFQEscapedName (View_SchemaQualifiedName view))
   then append deps (mk W) else deps)
  = deps ++ (if bool_decide (GetFQEscapedName W
                             <> GetFQEscapedName (View_SchemaQualifiedName view))
             then [mk W] else []).
Proof.
  rewrite (bool_decide_decide _).
  destruct (decide _); [done | by rewrite app_nil_r].
Qed.

Lemma view_GetAddAlterDependencies_eq (v : viewSQLVertexGenerator.t)
    (newView oldView : View) :
  viewSQLVertexGenerator.GetAddAlterDependencies v newView oldView
  = Ok (viewNewEdges newView
        ++ (if decide (oldView <> zeroView)
            then viewOldEdges newView oldView else [])).
Proof.
  unfold viewSQLVertexGenerator.GetAddAlterDependencies. f_equal.
  cbv zeta.
  destruct (decide (oldView <> zeroView)).
  - rewrite !range_append_if.
    rewrite (range_appends _ _ _ _
               (view_otherViews_body newView _)).
    rewrite range_append_all. unfold viewNewEdges, viewOldEdges.
    by rewrite <- !app_assoc.
  - rewrite (range_appends _ _ _ _
               (view_otherViews_body newView _)).
    rewrite range_append_all. unfold viewNewEdges.
    by rewrite app_nil_r.
Qed.

Lemma view_GetDeleteDependencies_eq (v : viewSQLVertexGenerator.t)
    (view : View) :
  viewSQLVertexGenerator.GetDeleteDependencies v view
  = Ok (viewDeleteEdges view).
Proof.
  unfold viewSQLVertexGenerator.GetDeleteDependencies. f_equal.
  cbv zeta.
  rewrite (range_appends _ _ _ _
             (view_otherViews_body view _)).
  by rewrite range_append_all.
Qed.

Lemma addsColumnb_spec (td : tableDiff) (ref : TableColumnRef) :
  addsColumnb td ref = true <-> addsColumn td ref.
Proof.
  unfold addsColumnb, addsColumn.
  rewrite !andb_true_iff, orb_true_iff, !bool_decide_eq_true, negb_true_iff.
  rewrite <- columnFound_hasColumn.
  destruct (functionSQLVertexGenerator.columnFound _ _);
    intuition congruence.
Qed.

Lemma columnRefBody_eq (f : functionSQLVertexGenerator.t)
    (newFunction : Function) (ref : TableColumnRef) (deps : list dependency)
    (td : tableDiff) :
  functionSQLVertexGenerator.columnRefBody f newFunction ref deps td
  = deps ++ (if addsColumnb td ref then [columnEdge newFunction td] else []).
Proof.
  unfold functionSQLVertexGenerator.columnRefBody, addsColumnb.
  destruct (_ || _); [|by rewrite app_nil_r]. cbn [andb].
  rewrite (bool_decide_decide (old td <> zeroTable)).
  destruct (decide (old td <> zeroTable)); [|by rewrite app_nil_r].
  cbn [andb].
  destruct (functionSQLVertexGenerator.columnFound _ _);
    [by rewrite app_nil_r | done].
Qed.

Lemma referencedColumnsLoop_eq (f : functionSQLVertexGenerator.t)
    (newFunction : Function) (deps : list dependency) :
  functionSQLVertexGenerator.referencedColumnsLoop f newFunction deps
  = deps ++ columnEdges (functionSQLVertexGenerator.tableDiffs f) newFunction.
Proof.
  unfold functionSQLVertexGenerator.referencedColumnsLoop, columnEdges.
  apply range_appends. intros deps' ref.
  apply range_appends. intros deps'' td. apply columnRefBody_eq.
Qed.

Lemma function_GetAddAlterDependencies_eq (f : functionSQLVertexGenerator.t)
    (newFunction oldFunction : Function) :
  functionSQLVertexGenerator.GetAddAlterDependencies f newFunction oldFunction
  = Ok (functionNewEdges newFunction
        ++ columnEdges (functionSQLVertexGenerator.tableDiffs f) newFunction
        ++ (if decide (oldFunction <> zeroFunction)
            then functionOldEdges newFunction oldFunction else [])).
Proof.
  unfold functionSQLVertexGenerator.GetAddAlterDependencies. f_equal.
  cbv zeta. rewrite referencedColumnsLoop_eq.
  destruct (decide (oldFunction <> zeroFunction)).
  - rewrite !range_append_all. unfold functionNewEdges, functionOldEdges.
    by rewrite <- !app_assoc.
  - rewrite !range_append_all. unfold functionNewEdges.
    by rewrite app_nil_r, <- !app_assoc.
Qed.

Lemma elem_of_columnEdges (tds : list tableDiff) (newFunction : Function)
    (d : dependency) :
  d ∈ columnEdges tds newFunction
  <-> exists ref td, ref ∈ elems (ReferencedColumns newFunction) /\ td ∈ tds
        /\ addsColumn td ref /\ d = columnEdge newFunction td.
Proof.
  unfold columnEdges. rewrite list_elem_of_bind. split.
  - intros (ref & Hd & Href). apply elem_of_bind_if in Hd as (td & Htd & Hb & ->).
    exists ref, td. by rewrite <- addsColumnb_spec.
  - intros (ref & td & Href & Htd & Hadds & ->). exists ref. split; [|done].
    apply elem_of_bind_if. exists td. by rewrite addsColumnb_spec.
Qed.

End dependencies.

(** ** Statements *)

Section statements.
Import schema diff spec.
Context `{Defaults}.

(** A text that starts as a CREATE OR REPLACE FUNCTION does not start as a
    DROP FUNCTION. *)
Lemma create_is_not_drop (def : string) :
  String.prefix "CREATE OR REPLACE FUNCTION" def = true ->
  String.prefix "DROP FUNCTION " def = false.
Proof.
  destruct def as [|c def]; [done|]. cbn [String.prefix].
  destruct (ascii_dec _ c) as [<-|]; [|done]. intros _.
  by destruct (ascii_dec _ _).
Qed.

Lemma prefix_append (p s : string) : String.prefix p (p +:+ s) = true.
Proof.
  induction p as [|c p IH]; [by destruct s|].
  rewrite append_cons. cbn [String.prefix]. by destruct (ascii_dec c c).
Qed.

(** What [Delete] of a function emits is a DROP FUNCTION statement. *)
Lemma function_Delete_isDropFunction (f : functionSQLVertexGenerator.t)
    (function : Function) (stmts : list Statement) (s : Statement) :
  functionSQLVertexGenerator.Delete f function = Ok stmts ->
  s ∈ stmts -> isDropFunction s = true.
Proof.
  unfold functionSQLVertexGenerator.Delete. intros [= <-] Hs.
  apply list_elem_of_singleton in Hs. subst s. apply prefix_append.
Qed.

(** C1. Altering a function whose old and new sides are equal emits nothing;
    otherwise it emits exactly the statements of [Add] of the new side, a
    single statement whose DDL is the stored definition text verbatim. Every
    statement an alter emits has that text as its DDL, so for a stored
    CREATE OR REPLACE FUNCTION text no statement is a DROP FUNCTION. *)
Theorem function_alter_reemits_add (f : functionSQLVertexGenerator.t)
    (diff : functionDiff) :
  (old diff = new diff -> functionSQLVertexGenerator.Alter f diff = Ok [])
  /\ (old diff <> new diff ->
        functionSQLVertexGenerator.Alter f diff
          = functionSQLVertexGenerator.Add f (new diff)
        /\ exists s, functionSQLVertexGenerator.Alter f diff = Ok [s]
                     /\ DDL s = FunctionDef (new diff))
  /\ (forall stmts s,
        functionSQLVertexGenerator.Alter f diff = Ok stmts -> s ∈ stmts ->
        DDL s = FunctionDef (new diff)
        /\ (isCreateOrReplace (FunctionDef (new diff)) = true ->
            isDropFunction s = false)).
Proof.
  unfold functionSQLVertexGenerator.Alter.
  destruct (decide (old diff = new diff)) as [Heq|Hne].
  - split; [done|]. split; [done|]. intros stmts s [= <-] Hs.
    by apply elem_of_nil in Hs.
  - split; [done|]. split.
    + intros _. split; [done|]. unfold functionSQLVertexGenerator.Add.
      eexists. split; [reflexivity|done].
    + unfold functionSQLVertexGenerator.Add. intros stmts s [= <-] Hs.
      apply list_elem_of_singleton in Hs. subst s. split; [done|].
      apply create_is_not_drop.
Qed.

(** C7. [Add] and [Delete] of a function each emit one statement, which
    carries the hazard HasUntrackableDependencies exactly when the language
    of the function is not sql. The DDL of [Add] is the stored definition,
    that of [Delete] is DROP FUNCTION and the fully-qualified escaped name. *)
Theorem function_add_delete_hazard (f : functionSQLVertexGenerator.t)
    (function : Function) :
  (exists s, functionSQLVertexGenerator.Add f function = Ok [s]
     /\ DDL s = FunctionDef function
     /\ (carries MigrationHazardTypeHasUntrackableDependencies s
         <-> Language function <> "sql"))
  /\ (exists s, functionSQLVertexGenerator.Delete f function = Ok [s]
        /\ DDL s = "DROP FUNCTION "
             +:+ GetFQEscapedName (Function_SchemaQualifiedName function)
        /\ (carries MigrationHazardTypeHasUntrackableDependencies s
            <-> Language function <> "sql")).
Proof.
  unfold functionSQLVertexGenerator.Add, functionSQLVertexGenerator.Delete,
    functionSQLVertexGenerator.canFunctionDependenciesBeTracked, carries.
  split; (eexists; split; [reflexivity|]; split; [done|]); simpl;
    rewrite (bool_decide_decide _);
    (destruct (decide (Language function = "sql")) as [Hsql|Hsql]; simpl; split;
     [ intros (h & Hh & _); by apply elem_of_nil in Hh
     | done
     | done
     | intros _; eexists; split; [by apply list_elem_of_singleton|done] ]).
Qed.

(** C2. Altering a view whose old and new sides are equal emits nothing;
    otherwise it emits two statements: DROP VIEW of the old view's
    fully-qualified escaped name, carrying DeletesData, then CREATE VIEW of
    the new view. Exactly one of the two is a drop. Every statement of a
    view's [Delete] carries DeletesData. *)
Theorem view_alter_drops_then_creates (v : viewSQLVertexGenerator.t)
    (diff : viewDiff) :
  (old diff = new diff -> viewSQLVertexGenerator.Alter v diff = Ok [])
  /\ (old diff <> new diff ->
        exists drop create,
          viewSQLVertexGenerator.Alter v diff = Ok [drop; create]
          /\ viewSQLVertexGenerator.Delete v (old diff) = Ok [drop]
          /\ viewSQLVertexGenerator.Add v (new diff) = Ok [create]
          /\ DDL drop = "DROP VIEW "
               +:+ GetFQEscapedName (View_SchemaQualifiedName (old diff))
          /\ carries MigrationHazardTypeDeletesData drop
          /\ DDL create = "CREATE VIEW "
               +:+ GetFQEscapedName (View_SchemaQualifiedName (new diff))
               +:+ " AS " +:+ Definition_ (new diff)
          /\ List.filter isDropView [drop; create] = [drop])
  /\ (forall view, exists s,
        viewSQLVertexGenerator.Delete v view = Ok [s]
        /\ carries MigrationHazardTypeDeletesData s).
Proof.
  unfold viewSQLVertexGenerator.Alter.
  destruct (decide (old diff = new diff)) as [Heq|Hne].
  - split; [done|]. split; [done|]. intros view. eexists.
    split; [reflexivity|]. eexists. split; [by apply list_elem_of_singleton|done].
  - split; [done|]. split.
    + intros _. do 2 eexists. split; [reflexivity|].
      split; [reflexivity|]. split; [reflexivity|]. split; [done|].
      split; [eexists; split; [by apply list_elem_of_singleton|done]|].
      split; [done|]. unfold isDropView. cbn [List.filter DDL].
      by rewrite prefix_append.
    + intros view. eexists. split; [reflexivity|]. eexists.
      split; [by apply list_elem_of_singleton|done].
Qed.

End statements.

(** ** Dependency edges *)

Section edges.
Import schema diff spec.
Context `{Defaults}.

(** When the table name of a column reference is the very string [GetName]
    gives for a tracked table diff whose old side is present and lacks the
    referenced column, the edges of the function's AddAlter vertex contain
    the edge from the AddAlter vertex of that table. *)
Theorem function_runs_after_added_column (f : functionSQLVertexGenerator.t)
    (newFunction oldFunction : Function) (ref : TableColumnRef)
    (td : tableDiff) :
  ref ∈ elems (ReferencedColumns newFunction) ->
  td ∈ functionSQLVertexGenerator.tableDiffs f ->
  (GetName (Table_SchemaQualifiedName (old td)) = TableName ref
   \/ GetName (Table_SchemaQualifiedName (new td)) = TableName ref) ->
  old td <> zeroTable ->
  ~ hasColumn (old td) (ColumnName ref) ->
  exists deps,
    functionSQLVertexGenerator.GetAddAlterDependencies f newFunction oldFunction
      = Ok deps
    /\ edge (tableVertex (Table_SchemaQualifiedName (new td)) diffTypeAddAlter)
         (functionVertex (Function_SchemaQualifiedName newFunction)
            diffTypeAddAlter) ∈ deps.
Proof.
  intros Href Htd Hname Hold Hcol.
  rewrite function_GetAddAlterDependencies_eq. eexists. split; [reflexivity|].
  apply elem_of_app. right. apply elem_of_app. left.
  apply elem_of_columnEdges. exists ref, td. by repeat split.
Qed.

(** C10. For a table diff whose old side is the zero table, the body of the
    referenced-columns loop leaves the edges as they are, whatever the
    reference. When every tracked table diff is of that kind, every edge of
    the function's AddAlter vertex that starts at a table comes from the
    function's list of tables. *)
Theorem created_table_gets_no_column_edge (f : functionSQLVertexGenerator.t)
    (newFunction oldFunction : Function) :
  (forall ref td deps,
     old td = zeroTable ->
     functionSQLVertexGenerator.columnRefBody f newFunction ref deps td = deps)
  /\ (forall ref td deps,
        functionSQLVertexGenerator.columnRefBody f newFunction ref deps td
          <> deps ->
        old td <> zeroTable)
  /\ ((forall td, td ∈ functionSQLVertexGenerator.tableDiffs f ->
         old td = zeroTable) ->
      forall deps,
        functionSQLVertexGenerator.referencedColumnsLoop f newFunction deps
          = deps)
  /\ ((forall td, td ∈ functionSQLVertexGenerator.tableDiffs f ->
         old td = zeroTable) ->
      exists deps,
        functionSQLVertexGenerator.GetAddAlterDependencies f newFunction
          oldFunction = Ok deps
        /\ forall d, d ∈ deps -> objType (source d) = "table" ->
             exists T, T ∈ elems (Function_DependsOnTables newFunction)
               /\ d = edge (tableVertex T diffTypeAddAlter)
                        (functionVertex
                           (Function_SchemaQualifiedName newFunction)
                           diffTypeAddAlter)).
Proof.
  assert (Hbody : forall ref td deps, old td = zeroTable ->
    functionSQLVertexGenerator.columnRefBody f newFunction ref deps td = deps).
  { intros ref td deps Hzero. rewrite columnRefBody_eq.
    destruct (addsColumnb td ref) eqn:Hb; [|by rewrite app_nil_r].
    apply addsColumnb_spec in Hb as (_ & Hold & _). done. }
  assert (Hnone : (forall td, td ∈ functionSQLVertexGenerator.tableDiffs f ->
                     old td = zeroTable) ->
    columnEdges (functionSQLVertexGenerator.tableDiffs f) newFunction = []).
  { intros Hall. apply elem_of_nil_inv. intros d Hd.
    apply elem_of_columnEdges in Hd as (ref & td & _ & Htd & (_ & Hold & _) & _).
    by apply Hold, Hall. }
  split; [exact Hbody|]. split.
  { intros ref td deps Hne Hzero. by apply Hne, Hbody. }
  split.
  { intros Hall deps. rewrite referencedColumnsLoop_eq, (Hnone Hall).
    by rewrite app_nil_r. }
  intros Hall. rewrite function_GetAddAlterDependencies_eq, (Hnone Hall).
  eexists. split; [reflexivity|]. intros d Hd Htable.
  rewrite app_nil_l in Hd. apply elem_of_app in Hd as [Hd|Hd].
  - unfold functionNewEdges in Hd. apply elem_of_app in Hd as [Hd|Hd].
    + apply list_elem_of_fmap in Hd as (G & -> & _). done.
    + apply list_elem_of_fmap in Hd as (T & -> & HT). by exists T.
  - destruct (decide (oldFunction <> zeroFunction)).
    + apply list_elem_of_fmap in Hd as (G & -> & _). done.
    + by apply elem_of_nil in Hd.
Qed.

(** C4. When a view is altered, every table and every view of the old
    view's lists that the new view's corresponding list does not name gets
    the edge from the view's AddAlter vertex to its Delete vertex. When the
    old view is the zero view, every edge ends at the view's AddAlter vertex,
    so no edge to a Delete vertex is emitted. *)
Theorem view_alter_precedes_dropped_dependencies
    (v : viewSQLVertexGenerator.t) (newView oldView : View) :
  (oldView <> zeroView ->
     forall D,
       (D ∈ elems (View_DependsOnTables oldView) ->
        ~ listed (View_DependsOnTables newView) D ->
        exists deps,
          viewSQLVertexGenerator.GetAddAlterDependencies v newView oldView
            = Ok deps
          /\ edge (viewVertex (View_SchemaQualifiedName newView)
                     diffTypeAddAlter)
               (tableVertex D diffTypeDelete) ∈ deps)
       /\ (D ∈ elems (DependsOnViews oldView) ->
           ~ listed (DependsOnViews newView) D ->
           exists deps,
             viewSQLVertexGenerator.GetAddAlterDependencies v newView oldView
               = Ok deps
             /\ edge (viewVertex (View_SchemaQualifiedName newView)
                        diffTypeAddAlter)
                  (viewVertex D diffTypeDelete) ∈ deps))
  /\ (oldView = zeroView ->
      exists deps,
        viewSQLVertexGenerator.GetAddAlterDependencies v newView oldView
          = Ok deps
        /\ forall d, d ∈ deps ->
             target d = viewVertex (View_SchemaQualifiedName newView)
                          diffTypeAddAlter
             /\ vertexDiffType (target d) <> diffTypeDelete).
Proof.
  rewrite view_GetAddAlterDependencies_eq. split.
  - intros Hold D. destruct (decide (oldView <> zeroView)); [|done].
    split; intros HD Hnot; apply contains_not_listed in Hnot;
      (eexists; split; [reflexivity|]);
      apply elem_of_app; right; unfold viewOldEdges; apply elem_of_app.
    + left. apply elem_of_bind_if. exists D. by rewrite Hnot.
    + right. apply elem_of_bind_if. exists D. by rewrite Hnot.
  - intros ->. destruct (decide (zeroView <> zeroView)); [done|].
    eexists. split; [reflexivity|]. intros d Hd.
    rewrite app_nil_r in Hd. unfold viewNewEdges in Hd.
    apply elem_of_app in Hd as [Hd|Hd].
    + apply list_elem_of_fmap in Hd as (T & -> & _). done.
    + apply elem_of_bind_if in Hd as (W & _ & _ & ->). done.
Qed.

(** C5. An event trigger gets exactly one AddAlter edge, from the AddAlter
    vertex of its function to its own, and exactly one Delete edge, from its
    own Delete vertex to that of its function. *)
Theorem event_trigger_edges (et : eventTriggerSQLVertexGenerator.t)
    (e oldET : EventTrigger) :
  eventTriggerSQLVertexGenerator.GetAddAlterDependencies et e oldET
    = Ok [edge (functionVertex (Function_ e) diffTypeAddAlter)
            (eventTriggerVertex e diffTypeAddAlter)]
  /\ eventTriggerSQLVertexGenerator.GetDeleteDependencies et e
       = Ok [edge (eventTriggerVertex e diffTypeDelete)
               (functionVertex (Function_ e) diffTypeDelete)].
Proof. split; reflexivity. Qed.

(** No edge of a view's AddAlter or Delete vertex joins a vertex to
    itself. *)
Lemma viewNewEdges_irreflexive (view : View) (d : dependency) :
  d ∈ viewNewEdges view -> source d <> target d.
Proof.
  unfold viewNewEdges. intros Hd. apply elem_of_app in Hd as [Hd|Hd].
  - apply list_elem_of_fmap in Hd as (T & -> & _). done.
  - apply elem_of_bind_if in Hd as (W & _ & Hne & ->).
    apply bool_decide_eq_true in Hne. simpl. unfold viewVertex. congruence.
Qed.

Lemma viewOldEdges_irreflexive (newView oldView : View) (d : dependency) :
  d ∈ viewOldEdges newView oldView -> source d <> target d.
Proof.
  unfold viewOldEdges. intros Hd. apply elem_of_app in Hd as [Hd|Hd];
    apply elem_of_bind_if in Hd as (W & _ & _ & ->); done.
Qed.

Lemma viewDeleteEdges_irreflexive (view : View) (d : dependency) :
  d ∈ viewDeleteEdges view -> source d <> target d.
Proof.
  unfold viewDeleteEdges. intros Hd. apply elem_of_app in Hd as [Hd|Hd].
  - apply list_elem_of_fmap in Hd as (T & -> & _). done.
  - apply elem_of_bind_if in Hd as (W & _ & Hne & ->).
    apply bool_decide_eq_true in Hne. simpl. unfold viewVertex. congruence.
Qed.

(** Neither the AddAlter edges nor the Delete edges of a view contain an
    edge from a vertex to itself: an entry of the view's list of views that
    names the view itself yields neither AddAlter(V) -> AddAlter(V) nor
    Delete(V) -> Delete(V). An edge between the view's two vertices is not
    excluded. *)
Theorem view_self_reference_yields_no_self_edge
    (v : viewSQLVertexGenerator.t) (view oldView : View) :
  (exists deps,
     viewSQLVertexGenerator.GetAddAlterDependencies v view oldView = Ok deps
     /\ (forall d, d ∈ deps -> source d <> target d)
     /\ (forall W, W ∈ elems (DependsOnViews view) ->
           GetFQEscapedName W
             = GetFQEscapedName (View_SchemaQualifiedName view) ->
           edge (viewVertex W diffTypeAddAlter)
             (viewVertex (View_SchemaQualifiedName view) diffTypeAddAlter)
             ∉ deps))
  /\ (exists deps,
        viewSQLVertexGenerator.GetDeleteDependencies v view = Ok deps
        /\ (forall d, d ∈ deps -> source d <> target d)
        /\ (forall W, W ∈ elems (DependsOnViews view) ->
              GetFQEscapedName W
                = GetFQEscapedName (View_SchemaQualifiedName view) ->
              edge (viewVertex (View_SchemaQualifiedName view) diffTypeDelete)
                (viewVertex W diffTypeDelete)
                ∉ deps)).
Proof.
  rewrite view_GetAddAlterDependencies_eq, view_GetDeleteDependencies_eq.
  assert (Hadd : forall d,
    d ∈ viewNewEdges view
        ++ (if decide (oldView <> zeroView)
            then viewOldEdges view oldView else []) ->
    source d <> target d).
  { intros d Hd. apply elem_of_app in Hd as [Hd|Hd].
    - by apply viewNewEdges_irreflexive in Hd.
    - destruct (decide (oldView <> zeroView)).
      + by apply viewOldEdges_irreflexive in Hd.
      + by apply elem_of_nil in Hd. }
  split; (eexists; split; [reflexivity|]); (split; [|intros W _ HW Hin]).
  - exact Hadd.
  - apply Hadd in Hin. apply Hin. simpl. unfold viewVertex. by rewrite HW.
  - intros d. apply viewDeleteEdges_irreflexive.
  - apply viewDeleteEdges_irreflexive in Hin. apply Hin. simpl.
    unfold viewVertex. by rewrite HW.
Qed.

(** X8. Where the loops test for the view's own name, a self-naming entry is
    ignored altogether: the Delete edges of a view, and the AddAlter edges of
    an added view, are those of the view without such entries. *)
Lemma view_self_references_ignored (v : viewSQLVertexGenerator.t) (view : View) :
  viewSQLVertexGenerator.GetDeleteDependencies v view
    = viewSQLVertexGenerator.GetDeleteDependencies v (withoutSelfReferences view)
  /\ viewSQLVertexGenerator.GetAddAlterDependencies v view zeroView
       = viewSQLVertexGenerator.GetAddAlterDependencies v
           (withoutSelfReferences view) zeroView.
Proof.
  rewrite !view_GetDeleteDependencies_eq, !view_GetAddAlterDependencies_eq.
  unfold viewDeleteEdges, viewNewEdges, withoutSelfReferences. cbn.
  destruct (DependsOnViews view) as [views|]; cbn; [|done].
  by rewrite !bind_if_filter.
Qed.

End edges.

(** ** Event-trigger DDL and totality *)

Section event_triggers.
Import schema diff spec.
Context `{Defaults}.

Lemma quoteTag_quotedLiteral (tag : string) :
  eventTriggerSQLVertexGenerator.quoteTag tag = quotedLiteral tag.
Proof.
  unfold eventTriggerSQLVertexGenerator.quoteTag, quotedLiteral.
  by rewrite !string_of_list_ascii_app, <- ReplaceAll_doubled.
Qed.

(** The tag inside a quoted literal is recovered by undoubling its quotes. *)
Lemma quoteTag_lossless (tag : string) :
  exists body,
    eventTriggerSQLVertexGenerator.quoteTag tag = "'" +:+ body +:+ "'"
    /\ undouble body = tag.
Proof.
  exists (ReplaceAll tag squote "''"). split; [done|].
  apply undouble_ReplaceAll.
Qed.

(** C6. [Add] of an event trigger emits one statement: CREATE EVENT TRIGGER
    with the escaped name and the event, then, only for a non-empty tag
    list, the WHEN TAG IN clause on a new indented line with the tags as
    comma-separated single-quoted literals whose single quotes are doubled,
    then EXECUTE FUNCTION on a new indented line with the fully-qualified
    escaped name of the function, an empty argument list and a semicolon.
    [Delete] emits one statement, DROP EVENT TRIGGER IF EXISTS with the
    escaped name. *)
Theorem event_trigger_ddl (et : eventTriggerSQLVertexGenerator.t)
    (e : EventTrigger) :
  (exists s, eventTriggerSQLVertexGenerator.Add et e = Ok [s]
     /\ DDL s = createEventTriggerDDL e)
  /\ (exists s, eventTriggerSQLVertexGenerator.Delete et e = Ok [s]
        /\ DDL s = "DROP EVENT TRIGGER IF EXISTS "
             +:+ EscapeIdentifier (Name e)).
Proof.
  split; [|by eexists].
  unfold eventTriggerSQLVertexGenerator.Add. eexists. split; [reflexivity|].
  cbn [DDL]. unfold createEventTriggerDDL, whenClause, len.
  destruct (elems (Tags e)) as [|tag tags].
  - destruct (decide (0 < length [])) as [Hlt|_]; [simpl in Hlt; lia|].
    by rewrite !append_assoc.
  - destruct (decide (0 < length (tag :: tags))) as [_|Hge];
      [|simpl in Hge; lia].
    rewrite Join_commaSeparated.
    rewrite (map_ext _ _ quoteTag_quotedLiteral).
    by rewrite !append_assoc.
Qed.

(** C9. No operation of the three generators returns an error. *)
Theorem generators_never_fail :
  neverFails (G := viewSQLVertexGenerator.t)
  /\ neverFails (G := functionSQLVertexGenerator.t)
  /\ neverFails (G := eventTriggerSQLVertexGenerator.t).
Proof.
  unfold neverFails, is_Ok. repeat split; cbn -[append].
  all: try (eexists; reflexivity).
  - unfold viewSQLVertexGenerator.Alter. destruct (decide _); by eexists.
  - unfold functionSQLVertexGenerator.Alter. destruct (decide _); by eexists.
  - unfold eventTriggerSQLVertexGenerator.Alter. destruct (decide _); by eexists.
Qed.

End event_triggers.

(** ** The scenarios *)

Section scenarios.
Import schema diff spec scenario.

(** A replaced function body: the alter is the add of the new side, and an
    unchanged function emits nothing. *)
Lemma function_alter_reemits_add_witness :
  functionSQLVertexGenerator.Alter (H := defaults) (functionGen [])
    {| old := f_plpgsql; new := f |}
    = functionSQLVertexGenerator.Add (H := defaults) (functionGen []) f
  /\ functionSQLVertexGenerator.Alter (H := defaults) (functionGen [])
       {| old := f; new := f |} = Ok []
  /\ (forall s,
        s ∈ [ {| DDL := FunctionDef f;
                 Timeout := 3000000000%Z; LockTimeout := 3000000000%Z;
                 Hazards := [] |} ] ->
        isDropFunction s = false).
Proof.
  split; [|split].
  - apply (function_alter_reemits_add (H := defaults) (functionGen [])
             {| old := f_plpgsql; new := f |}).
    compute_done.
  - apply (function_alter_reemits_add (H := defaults) (functionGen [])
             {| old := f; new := f |}).
    reflexivity.
  - intros s Hs.
    apply (function_alter_reemits_add (H := defaults) (functionGen [])
             {| old := f_plpgsql; new := f |} ) with (stmts := [s]).
    + apply list_elem_of_singleton in Hs. subst s. reflexivity.
    + apply list_elem_of_singleton. reflexivity.
    + reflexivity.
Defined.

(** A plpgsql function carries the hazard, a sql function does not. *)
Lemma function_add_delete_hazard_witness :
  (exists s, functionSQLVertexGenerator.Add (H := defaults) (functionGen [])
               f_plpgsql = Ok [s]
     /\ carries MigrationHazardTypeHasUntrackableDependencies s)
  /\ (exists s, functionSQLVertexGenerator.Delete (H := defaults)
                  (functionGen []) f = Ok [s]
        /\ ~ carries MigrationHazardTypeHasUntrackableDependencies s).
Proof.
  split.
  - destruct (function_add_delete_hazard (H := defaults) (functionGen [])
                f_plpgsql) as [(s & Hs & _ & Hiff) _].
    exists s. split; [exact Hs|]. apply Hiff. compute_done.
  - destruct (function_add_delete_hazard (H := defaults) (functionGen []) f)
      as [_ (s & Hs & _ & Hiff)].
    exists s. split; [exact Hs|]. intros Hc. apply Hiff in Hc.
    apply Hc. reflexivity.
Defined.

(** Scenario 2: the alter of expensive_products is one DROP VIEW and one
    CREATE VIEW. *)
Lemma view_alter_drops_then_creates_witness :
  exists drop create,
    viewSQLVertexGenerator.Alter (H := defaults) viewGen
      {| old := expensive_100; new := expensive_200 |} = Ok [drop; create]
    /\ DDL drop = "DROP VIEW " +:+ GetFQEscapedName (public "expensive_products")
    /\ carries MigrationHazardTypeDeletesData drop
    /\ DDL create = "CREATE VIEW "
         +:+ GetFQEscapedName (public "expensive_products")
         +:+ " AS SELECT * FROM products WHERE price > 200".
Proof.
  destruct (view_alter_drops_then_creates (H := defaults) viewGen
              {| old := expensive_100; new := expensive_200 |})
    as (_ & Hne & _).
  destruct Hne as (drop & create & Halter & _ & _ & Hdrop & Hc & Hcreate & _).
  - compute_done.
  - exists drop, create. repeat split; assumption.
Defined.

(** With the reference to t.b written as [GetName] names t, the function f
    runs after the alter of t that adds b. *)
Lemma function_runs_after_added_column_witness :
  exists deps,
    functionSQLVertexGenerator.GetAddAlterDependencies
      (functionGen [t_diff]) f zeroFunction = Ok deps
    /\ edge (tableVertex (public "t") diffTypeAddAlter)
         (functionVertex (public "f()") diffTypeAddAlter) ∈ deps.
Proof.
  apply (function_runs_after_added_column
           (functionGen [t_diff]) f zeroFunction t_b t_diff).
  - compute_done.
  - apply list_elem_of_singleton. reflexivity.
  - left. reflexivity.
  - compute_done.
  - rewrite <- columnFound_hasColumn. compute_done.
Defined.

(** The same function when t is created by the migration: the reference to
    t.b adds no edge. *)
Lemma created_table_gets_no_column_edge_witness :
  functionSQLVertexGenerator.referencedColumnsLoop (functionGen [t_created]) f []
    = []
  /\ functionSQLVertexGenerator.columnRefBody (functionGen [t_created]) f t_b []
       t_created = [].
Proof.
  destruct (created_table_gets_no_column_edge
              (functionGen [t_created]) f zeroFunction)
    as (Hbody & _ & Hloop & _).
  split.
  - apply Hloop. intros td Htd. apply list_elem_of_singleton in Htd.
    subst td. reflexivity.
  - apply Hbody. reflexivity.
Defined.

(** quarterly_sales stops reading monthly_sales: its rebuild precedes the
    drop of monthly_sales. *)
Lemma view_alter_precedes_dropped_dependencies_witness :
  (exists deps,
     viewSQLVertexGenerator.GetAddAlterDependencies viewGen
       quarterly_sales_direct quarterly_sales = Ok deps
     /\ edge (viewVertex (public "quarterly_sales") diffTypeAddAlter)
          (viewVertex (public "monthly_sales") diffTypeDelete) ∈ deps)
  /\ (exists deps,
        viewSQLVertexGenerator.GetAddAlterDependencies viewGen
          quarterly_sales zeroView = Ok deps
        /\ forall d, d ∈ deps ->
             target d = viewVertex (public "quarterly_sales") diffTypeAddAlter
             /\ vertexDiffType (target d) <> diffTypeDelete).
Proof.
  split.
  - destruct (view_alter_precedes_dropped_dependencies viewGen
                quarterly_sales_direct quarterly_sales) as [Halter _].
    apply (Halter ltac:(compute_done) (public "monthly_sales")).
    + compute_done.
    + rewrite <- contains_listed. compute_done.
  - destruct (view_alter_precedes_dropped_dependencies viewGen
                quarterly_sales zeroView) as [_ Hadd].
    apply Hadd. reflexivity.
Defined.

(** An added view that lists itself gets no edge onto itself. *)
Lemma view_self_reference_yields_no_self_edge_witness :
  exists deps,
    viewSQLVertexGenerator.GetAddAlterDependencies viewGen recursive_view
      zeroView = Ok deps
    /\ edge (viewVertex (public "r") diffTypeAddAlter)
         (viewVertex (public "r") diffTypeAddAlter) ∉ deps.
Proof.
  destruct (view_self_reference_yields_no_self_edge viewGen recursive_view
              zeroView) as [(deps & Hdeps & _ & Hself) _].
  exists deps. split; [exact Hdeps|].
  apply (Hself (public "r")).
  - compute_done.
  - reflexivity.
Defined.

(** The statement TestEventTriggerSQLVertexGenerator_Add expects. *)
Example log_ddl_create :
  eventTriggerSQLVertexGenerator.Add (H := defaults) eventTriggerGen log_ddl
  = Ok [ {| DDL :=
              "CREATE EVENT TRIGGER " +:+ dquote +:+ "log_ddl" +:+ dquote
                +:+ " ON ddl_command_end" +:+ newline
                +:+ "    WHEN TAG IN ('CREATE TABLE', 'ALTER TABLE')" +:+ newline
                +:+ "    EXECUTE FUNCTION " +:+ dquote +:+ "public" +:+ dquote
                +:+ "." +:+ dquote +:+ "log_ddl_command" +:+ dquote +:+ "();";
            Timeout := 3000000000%Z; LockTimeout := 3000000000%Z;
            Hazards := [] |} ].
Proof. vm_compute. reflexivity. Qed.

(** A single quote inside a tag is written twice. *)
Example log_quoted_create :
  exists s,
    eventTriggerSQLVertexGenerator.Add (H := defaults) eventTriggerGen
      log_quoted = Ok [s]
    /\ DDL s =
         "CREATE EVENT TRIGGER " +:+ EscapeIdentifier "log_ddl"
           +:+ " ON ddl_command_end" +:+ newline
           +:+ "    WHEN TAG IN ('it''s')" +:+ newline
           +:+ "    EXECUTE FUNCTION " +:+ GetFQEscapedName (public "log_ddl_command")
           +:+ "();".
Proof. eexists. split; vm_compute; reflexivity. Qed.

(** The statement TestEventTriggerSQLVertexGenerator_Delete expects. *)
Example log_ddl_drop :
  exists s,
    eventTriggerSQLVertexGenerator.Delete (H := defaults) eventTriggerGen
      log_ddl = Ok [s]
    /\ DDL s = "DROP EVENT TRIGGER IF EXISTS " +:+ dquote +:+ "log_ddl" +:+ dquote.
Proof. eexists. split; vm_compute; reflexivity. Qed.

(** Scenario 3: quarterly_sales is dropped before monthly_sales. *)
Example quarterly_sales_delete_edges :
  viewSQLVertexGenerator.GetDeleteDependencies viewGen quarterly_sales
  = Ok [edge (viewVertex (public "quarterly_sales") diffTypeDelete)
          (viewVertex (public "monthly_sales") diffTypeDelete)].
Proof. vm_compute. reflexivity. Qed.

(** The edges of the view that lists itself: one from its table and one from
    the other view. *)
Example recursive_view_edges :
  viewSQLVertexGenerator.GetAddAlterDependencies viewGen recursive_view zeroView
  = Ok [edge (tableVertex (public "sales") diffTypeAddAlter)
          (viewVertex (public "r") diffTypeAddAlter);
        edge (viewVertex (public "monthly_sales") diffTypeAddAlter)
          (viewVertex (public "r") diffTypeAddAlter)].
Proof. vm_compute. reflexivity. Qed.

(** The loop over the old view's list of views has no test for the view's
    own name: when the old side lists the view itself and the new side does
    not, the edge from the view's AddAlter vertex to its own Delete vertex is
    emitted. Its two ends are different vertices. *)
Example old_self_reference_edge :
  viewSQLVertexGenerator.GetAddAlterDependencies viewGen
    {| View_SchemaQualifiedName := public "r"; Definition_ := "SELECT 1";
       View_DependsOnTables := Some []; DependsOnViews := Some [] |}
    {| View_SchemaQualifiedName := public "r"; Definition_ := "SELECT * FROM r";
       View_DependsOnTables := Some []; DependsOnViews := Some [public "r"] |}
  = Ok [edge (viewVertex (public "r") diffTypeAddAlter)
          (viewVertex (public "r") diffTypeDelete)].
Proof. vm_compute. reflexivity. Qed.

(** A column reference is matched with a table diff through the table's
    [GetName]: a reference that names the table t by its bare name matches
    no diff, and no edge is added for it. *)
Example bare_table_name_matches_nothing :
  functionSQLVertexGenerator.columnRefBody (functionGen [t_diff]) f
    {| TableName := "t"; ColumnName := "b" |} [] t_diff = [].
Proof. vm_compute. reflexivity. Qed.

(** With the reference written as [GetName] names t: the one edge of f. *)
Example scenario_6_edges :
  functionSQLVertexGenerator.GetAddAlterDependencies (functionGen [t_diff]) f
    zeroFunction
  = Ok [edge (tableVertex (public "t") diffTypeAddAlter)
          (functionVertex (public "f()") diffTypeAddAlter)].
Proof. vm_compute. reflexivity. Qed.

End scenarios.

(** ** Further properties: statements *)

Section further_statements.
Import schema diff spec further.
Context `{Defaults}.

(** X1. Altering an event trigger whose two sides are equal emits nothing;
    otherwise it emits the statement of [Delete] of the old side, a DROP
    EVENT TRIGGER IF EXISTS of the old name, and then the statement of [Add]
    of the new side. *)
Theorem event_trigger_alter_drops_then_creates
    (et : eventTriggerSQLVertexGenerator.t) (diff : eventTriggerDiff) :
  (old diff = new diff -> eventTriggerSQLVertexGenerator.Alter et diff = Ok [])
  /\ (old diff <> new diff ->
        exists drop create,
          eventTriggerSQLVertexGenerator.Alter et diff = Ok [drop; create]
          /\ eventTriggerSQLVertexGenerator.Delete et (old diff) = Ok [drop]
          /\ eventTriggerSQLVertexGenerator.Add et (new diff) = Ok [create]
          /\ DDL drop = "DROP EVENT TRIGGER IF EXISTS "
               +:+ EscapeIdentifier (Name (old diff))).
Proof.
  unfold eventTriggerSQLVertexGenerator.Alter.
  destruct (decide (old diff = new diff)) as [Heq|Hne]; split; try done.
  intros _. do 2 eexists. repeat split; reflexivity.
Qed.

(** X2. The statement of [Add] is made of the name, the event, the tags and
    the function of the trigger only. Two triggers that agree on these and
    differ otherwise (in the enabled flag, or in a nil against an empty tag
    list) are altered by a drop followed by the very statement that created
    the old one. *)
Theorem event_trigger_recreated_unchanged
    (et : eventTriggerSQLVertexGenerator.t) (e e' : EventTrigger) :
  Name e = Name e' -> Event e = Event e' ->
  elems (Tags e) = elems (Tags e') -> Function_ e = Function_ e' ->
  eventTriggerSQLVertexGenerator.Add et e
    = eventTriggerSQLVertexGenerator.Add et e'
  /\ (e <> e' ->
      exists drop create,
        eventTriggerSQLVertexGenerator.Alter et {| old := e; new := e' |}
          = Ok [drop; create]
        /\ eventTriggerSQLVertexGenerator.Add et e = Ok [create]).
Proof.
  intros Hname Hevent Htags Hfunction.
  assert (Hadd : eventTriggerSQLVertexGenerator.Add et e
                 = eventTriggerSQLVertexGenerator.Add et e').
  { unfold eventTriggerSQLVertexGenerator.Add, len.
    by rewrite Hname, Hevent, Htags, Hfunction. }
  split; [exact Hadd|]. intros Hne.
  unfold eventTriggerSQLVertexGenerator.Alter. cbn [old new].
  destruct (decide (e = e')); [done|]. rewrite Hadd.
  do 2 eexists. split; reflexivity.
Qed.

(** Splits [emits] into the statements each operation builds. *)
Ltac emitted_cases Hemits :=
  let stmts := fresh "stmts" in
  let Hst := fresh "Hst" in
  let Hop := fresh "Hop" in
  destruct Hemits as (stmts & Hst & [(? & Hop)|[(? & Hop)|(? & Hop)]]);
  cbn in Hop;
  [ | | first
        [ progress unfold viewSQLVertexGenerator.Alter in Hop
        | progress unfold functionSQLVertexGenerator.Alter in Hop
        | progress unfold eventTriggerSQLVertexGenerator.Alter in Hop ];
      match type of Hop with
      | context [decide ?P] => destruct (decide P)
      end ];
  injection Hop as <-;
  repeat (apply elem_of_cons in Hst as [->|Hst]);
  try (by apply elem_of_nil in Hst).

(** X3. Every statement any operation of the three generators returns has
    the default statement timeout and the default lock timeout. *)
Theorem statements_use_default_timeouts :
  (forall (g : viewSQLVertexGenerator.t) st, emits g st -> usesDefaultTimeouts st)
  /\ (forall (g : functionSQLVertexGenerator.t) st,
        emits g st -> usesDefaultTimeouts st)
  /\ (forall (g : eventTriggerSQLVertexGenerator.t) st,
        emits g st -> usesDefaultTimeouts st).
Proof.
  split; [|split]; intros g st Hemits; emitted_cases Hemits; done.
Qed.

(** X4. Hazards by generator. A statement of the view generator carries
    DeletesData exactly when it is a DROP VIEW, and no other kind of hazard;
    a statement of the function generator carries at most one hazard, of
    kind HasUntrackableDependencies; a statement of the event-trigger
    generator, the drop included, carries none. *)
Theorem hazards_by_generator :
  (forall (g : viewSQLVertexGenerator.t) st,
     emits g st ->
     (carries MigrationHazardTypeDeletesData st <-> isDropView st = true)
     /\ (forall h, h ∈ Hazards st -> Type_ h = MigrationHazardTypeDeletesData))
  /\ (forall (g : functionSQLVertexGenerator.t) st,
        emits g st ->
        length (Hazards st) <= 1
        /\ (forall h, h ∈ Hazards st ->
              Type_ h = MigrationHazardTypeHasUntrackableDependencies))
  /\ (forall (g : eventTriggerSQLVertexGenerator.t) st,
        emits g st -> Hazards st = []).
Proof.
  split; [|split]; intros g st Hemits; emitted_cases Hemits.
  - (* CREATE VIEW *)
    split; [|intros h Hh; by apply elem_of_nil in Hh].
    split; [intros (h & Hh & _); by apply elem_of_nil in Hh|done].
  - (* DROP VIEW *)
    split; [|intros h Hh; by apply list_elem_of_singleton in Hh as ->].
    split; [intros _; apply prefix_append|].
    intros _. eexists. split; [by apply list_elem_of_singleton|done].
  - split; [|intros h Hh; by apply list_elem_of_singleton in Hh as ->].
    split; [intros _; apply prefix_append|].
    intros _. eexists. split; [by apply list_elem_of_singleton|done].
  - split; [|intros h Hh; by apply elem_of_nil in Hh].
    split; [intros (h & Hh & _); by apply elem_of_nil in Hh|done].
  - cbn [Hazards]. destruct (negb _); cbn.
    + split; [lia|]. intros h Hh. by apply list_elem_of_singleton in Hh as ->.
    + split; [lia|]. intros h Hh. by apply elem_of_nil in Hh.
  - cbn [Hazards]. destruct (negb _); cbn.
    + split; [lia|]. intros h Hh. by apply list_elem_of_singleton in Hh as ->.
    + split; [lia|]. intros h Hh. by apply elem_of_nil in Hh.
  - cbn [Hazards]. destruct (negb _); cbn.
    + split; [lia|]. intros h Hh. by apply list_elem_of_singleton in Hh as ->.
    + split; [lia|]. intros h Hh. by apply elem_of_nil in Hh.
  - done.
  - done.
  - done.
  - done.
Qed.

(** X5. The statements of a function alter carry the hazard
    HasUntrackableDependencies exactly when the two sides differ and the
    language of the new side is not sql; the language of the old side plays
    no part. *)
Theorem function_alter_hazard (f : functionSQLVertexGenerator.t)
    (diff : functionDiff) (stmts : list Statement) :
  functionSQLVertexGenerator.Alter f diff = Ok stmts ->
  ((exists s, s ∈ stmts
      /\ carries MigrationHazardTypeHasUntrackableDependencies s)
   <-> old diff <> new diff /\ Language (new diff) <> "sql").
Proof.
  unfold functionSQLVertexGenerator.Alter, functionSQLVertexGenerator.Add,
    functionSQLVertexGenerator.canFunctionDependenciesBeTracked, carries.
  destruct (decide (old diff = new diff)) as [Heq|Hne]; intros [= <-].
  - split; [|by intros [? _]]. intros (s & Hs & _). by apply elem_of_nil in Hs.
  - rewrite (bool_decide_decide _).
    destruct (decide (Language (new diff) = "sql")) as [Hsql|Hsql]; cbn.
    + split; [|by intros [_ ?]]. intros (s & Hs & h & Hh & _).
      apply list_elem_of_singleton in Hs as ->. by apply elem_of_nil in Hh.
    + split; [done|]. intros _. eexists. split; [by apply list_elem_of_singleton|].
      eexists. split; [by apply list_elem_of_singleton|done].
Qed.

End further_statements.

(** ** Further properties: edges of views *)

Section further_view_edges.
Import schema diff spec further.

Lemma elem_of_viewNewEdges (view : View) (d : dependency) :
  d ∈ viewNewEdges view
  <-> (exists T, T ∈ elems (View_DependsOnTables view)
         /\ d = edge (tableVertex T diffTypeAddAlter)
                  (viewVertex (View_SchemaQualifiedName view) diffTypeAddAlter))
      \/ (exists W, W ∈ elems (DependsOnViews view)
            /\ GetFQEscapedName W
                 <> GetFQEscapedName (View_SchemaQualifiedName view)
            /\ d = edge (viewVertex W diffTypeAddAlter)
                     (viewVertex (View_SchemaQualifiedName view)
                        diffTypeAddAlter)).
Proof.
  unfold viewNewEdges. rewrite elem_of_app, list_elem_of_fmap, elem_of_bind_if.
  split; (intros [(T & H1 & H2)|(W & H1 & H2 & H3)]; [left; by exists T|right]).
  - exists W. by apply bool_decide_eq_true in H2.
  - exists W. by rewrite bool_decide_eq_true.
Qed.

Lemma elem_of_viewOldEdges (newView oldView : View) (d : dependency) :
  d ∈ viewOldEdges newView oldView
  <-> (exists T, T ∈ elems (View_DependsOnTables oldView)
         /\ ~ listed (View_DependsOnTables newView) T
         /\ d = edge (viewVertex (View_SchemaQualifiedName newView)
                        diffTypeAddAlter)
                  (tableVertex T diffTypeDelete))
      \/ (exists W, W ∈ elems (DependsOnViews oldView)
            /\ ~ listed (DependsOnViews newView) W
            /\ d = edge (viewVertex (View_SchemaQualifiedName newView)
                           diffTypeAddAlter)
                     (viewVertex W diffTypeDelete)).
Proof.
  unfold viewOldEdges. rewrite elem_of_app, !elem_of_bind_if.
  split; (intros [(x & H1 & H2 & H3)|(x & H1 & H2 & H3)];
          [left|right]; exists x; repeat split; try done).
  - apply contains_not_listed. by destruct (contains _ x).
  - apply contains_not_listed. by destruct (contains _ x).
  - apply contains_not_listed in H2. by rewrite H2.
  - apply contains_not_listed in H2. by rewrite H2.
Qed.

Lemma elem_of_viewDeleteEdges (view : View) (d : dependency) :
  d ∈ viewDeleteEdges view
  <-> (exists T, T ∈ elems (View_DependsOnTables view)
         /\ d = edge (viewVertex (View_SchemaQualifiedName view) diffTypeDelete)
                  (tableVertex T diffTypeDelete))
      \/ (exists W, W ∈ elems (DependsOnViews view)
            /\ GetFQEscapedName W
                 <> GetFQEscapedName (View_SchemaQualifiedName view)
            /\ d = edge (viewVertex (View_SchemaQualifiedName view)
                           diffTypeDelete)
                     (viewVertex W diffTypeDelete)).
Proof.
  unfold viewDeleteEdges.
  rewrite elem_of_app, list_elem_of_fmap, elem_of_bind_if.
  split; (intros [(T & H1 & H2)|(W & H1 & H2 & H3)]; [left; by exists T|right]).
  - exists W. by apply bool_decide_eq_true in H2.
  - exists W. by rewrite bool_decide_eq_true.
Qed.

(** X6. The AddAlter edges of a view are exactly these: from the AddAlter
    vertex of each table of the new view; from the AddAlter vertex of each
    view of the new view other than itself; and, when the old view is not
    the zero view, to the Delete vertex of each table and each view of the
    old view that the new view's corresponding list does not name. An old
    dependency the new view still names gets no edge. *)
Theorem view_add_alter_edges (v : viewSQLVertexGenerator.t)
    (newView oldView : View) :
  exists deps,
    viewSQLVertexGenerator.GetAddAlterDependencies v newView oldView = Ok deps
    /\ forall d, d ∈ deps <->
         (exists T, T ∈ elems (View_DependsOnTables newView)
            /\ d = edge (tableVertex T diffTypeAddAlter)
                     (viewVertex (View_SchemaQualifiedName newView)
                        diffTypeAddAlter))
         \/ (exists W, W ∈ elems (DependsOnViews newView)
               /\ GetFQEscapedName W
                    <> GetFQEscapedName (View_SchemaQualifiedName newView)
               /\ d = edge (viewVertex W diffTypeAddAlter)
                        (viewVertex (View_SchemaQualifiedName newView)
                           diffTypeAddAlter))
         \/ (oldView <> zeroView
             /\ exists T, T ∈ elems (View_DependsOnTables oldView)
                  /\ ~ listed (View_DependsOnTables newView) T
                  /\ d = edge (viewVertex (View_SchemaQualifiedName newView)
                                 diffTypeAddAlter)
                           (tableVertex T diffTypeDelete))
         \/ (oldView <> zeroView
             /\ exists W, W ∈ elems (DependsOnViews oldView)
                  /\ ~ listed (DependsOnViews newView) W
                  /\ d = edge (viewVertex (View_SchemaQualifiedName newView)
                                 diffTypeAddAlter)
                           (viewVertex W diffTypeDelete)).
Proof.
  rewrite view_GetAddAlterDependencies_eq. eexists. split; [reflexivity|].
  intros d. rewrite elem_of_app, elem_of_viewNewEdges.
  destruct (decide (oldView <> zeroView)) as [Hold|Hold].
  - rewrite elem_of_viewOldEdges. tauto.
  - rewrite elem_of_nil. tauto.
Qed.

(** X7. The Delete edges of a view are exactly the edges from its Delete
    vertex to the Delete vertex of each of its tables and of each of its
    views other than itself. *)
Theorem view_delete_edges (v : viewSQLVertexGenerator.t) (view : View) :
  exists deps,
    viewSQLVertexGenerator.GetDeleteDependencies v view = Ok deps
    /\ forall d, d ∈ deps <->
         (exists T, T ∈ elems (View_DependsOnTables view)
            /\ d = edge (viewVertex (View_SchemaQualifiedName view)
                           diffTypeDelete)
                     (tableVertex T diffTypeDelete))
         \/ (exists W, W ∈ elems (DependsOnViews view)
               /\ GetFQEscapedName W
                    <> GetFQEscapedName (View_SchemaQualifiedName view)
               /\ d = edge (viewVertex (View_SchemaQualifiedName view)
                              diffTypeDelete)
                        (viewVertex W diffTypeDelete)).
Proof.
  rewrite view_GetDeleteDependencies_eq. eexists. split; [reflexivity|].
  intros d. apply elem_of_viewDeleteEdges.
Qed.

(** X9. The loop over the old view's views has no test for the view's own
    name: when the old view names itself among its views and the new view
    does not name itself, the alter gets the edge from its AddAlter vertex to
    a Delete vertex of the same view. *)
Theorem view_old_self_reference_edge (v : viewSQLVertexGenerator.t)
    (newView oldView : View) (W : SchemaQualifiedName) :
  oldView <> zeroView ->
  W ∈ elems (DependsOnViews oldView) ->
  GetFQEscapedName W = GetFQEscapedName (View_SchemaQualifiedName newView) ->
  ~ listed (DependsOnViews newView) (View_SchemaQualifiedName newView) ->
  exists deps,
    viewSQLVertexGenerator.GetAddAlterDependencies v newView oldView = Ok deps
    /\ edge (viewVertex (View_SchemaQualifiedName newView) diffTypeAddAlter)
         (viewVertex (View_SchemaQualifiedName newView) diffTypeDelete) ∈ deps.
Proof.
  intros Hold HW Hself Hnot.
  rewrite view_GetAddAlterDependencies_eq. eexists. split; [reflexivity|].
  apply elem_of_app. right.
  destruct (decide (oldView <> zeroView)) as [_|Hzero]; [|done].
  apply elem_of_viewOldEdges. right. exists W. split; [done|]. split.
  - intros (m & Hm & Heq). apply Hnot. exists m. split; [done|]. congruence.
  - unfold edge, viewVertex. by rewrite Hself.
Qed.

End further_view_edges.

(** ** Further properties: edges of functions *)

Section further_function_edges.
Import schema diff spec further.

Lemma elem_of_functionNewEdges (newFunction : Function) (d : dependency) :
  d ∈ functionNewEdges newFunction
  <-> (exists G, G ∈ elems (DependsOnFunctions newFunction)
         /\ d = edge (functionVertex G diffTypeAddAlter)
                  (functionVertex (Function_SchemaQualifiedName newFunction)
                     diffTypeAddAlter))
      \/ (exists T, T ∈ elems (Function_DependsOnTables newFunction)
            /\ d = edge (tableVertex T diffTypeAddAlter)
                     (functionVertex (Function_SchemaQualifiedName newFunction)
                        diffTypeAddAlter)).
Proof.
  unfold functionNewEdges. rewrite elem_of_app, !list_elem_of_fmap.
  split; (intros [(x & H1 & H2)|(x & H1 & H2)]; [left|right]; by exists x).
Qed.

Lemma elem_of_functionOldEdges (newFunction oldFunction : Function)
    (d : dependency) :
  d ∈ functionOldEdges newFunction oldFunction
  <-> exists G, G ∈ elems (DependsOnFunctions oldFunction)
        /\ d = edge (functionVertex (Function_SchemaQualifiedName newFunction)
                       diffTypeAddAlter)
                 (functionVertex G diffTypeDelete).
Proof.
  unfold functionOldEdges. rewrite list_elem_of_fmap.
  split; intros (G & H1 & H2); by exists G.
Qed.

Lemma elem_of_function_edges (tds : list tableDiff)
    (newFunction oldFunction : Function) (d : dependency) :
  d ∈ functionNewEdges newFunction ++ columnEdges tds newFunction
      ++ (if decide (oldFunction <> zeroFunction)
          then functionOldEdges newFunction oldFunction else [])
  <-> d ∈ functionNewEdges newFunction
      \/ d ∈ columnEdges tds newFunction
      \/ (oldFunction <> zeroFunction
          /\ d ∈ functionOldEdges newFunction oldFunction).
Proof.
  rewrite !elem_of_app.
  destruct (decide (oldFunction <> zeroFunction)); [tauto|].
  rewrite elem_of_nil. tauto.
Qed.

(** X10. The AddAlter edges of a function are exactly these: from the
    AddAlter vertex of each function and each table the new function lists;
    from the AddAlter vertex of the new side of each tracked table diff that
    a column reference names, whose old side is not the zero table and has no
    column of the referenced name; and, when the old function is not the zero
    function, to the Delete vertex of each function the old one lists. *)
Theorem function_add_alter_edges (f : functionSQLVertexGenerator.t)
    (newFunction oldFunction : Function) :
  exists deps,
    functionSQLVertexGenerator.GetAddAlterDependencies f newFunction oldFunction
      = Ok deps
    /\ forall d, d ∈ deps <->
         (exists G, G ∈ elems (DependsOnFunctions newFunction)
            /\ d = edge (functionVertex G diffTypeAddAlter)
                     (functionVertex (Function_SchemaQualifiedName newFunction)
                        diffTypeAddAlter))
         \/ (exists T, T ∈ elems (Function_DependsOnTables newFunction)
               /\ d = edge (tableVertex T diffTypeAddAlter)
                        (functionVertex
                           (Function_SchemaQualifiedName newFunction)
                           diffTypeAddAlter))
         \/ (exists ref td,
               ref ∈ elems (ReferencedColumns newFunction)
               /\ td ∈ functionSQLVertexGenerator.tableDiffs f
               /\ (GetName (Table_SchemaQualifiedName (old td)) = TableName ref
                   \/ GetName (Table_SchemaQualifiedName (new td))
                        = TableName ref)
               /\ old td <> zeroTable
               /\ ~ hasColumn (old td) (ColumnName ref)
               /\ d = edge (tableVertex (Table_SchemaQualifiedName (new td))
                              diffTypeAddAlter)
                        (functionVertex
                           (Function_SchemaQualifiedName newFunction)
                           diffTypeAddAlter))
         \/ (oldFunction <> zeroFunction
             /\ exists G, G ∈ elems (DependsOnFunctions oldFunction)
                  /\ d = edge (functionVertex
                                 (Function_SchemaQualifiedName newFunction)
                                 diffTypeAddAlter)
                           (functionVertex G diffTypeDelete)).
Proof.
  rewrite function_GetAddAlterDependencies_eq. eexists. split; [reflexivity|].
  intros d. rewrite elem_of_function_edges, elem_of_functionNewEdges,
    elem_of_columnEdges, elem_of_functionOldEdges.
  unfold addsColumn, columnEdge. split.
  - intros [[?|?]|[(ref & td & ? & ? & (? & ? & ?) & ?)|?]]; eauto 12.
  - intros [?|[?|[(ref & td & ? & ? & ? & ? & ? & ?)|?]]]; eauto 12.
Qed.

(** X11. The function generator has no test for the function's own name: a
    function that lists itself among the functions it depends on gets an
    edge from its AddAlter vertex to that same vertex. *)
Theorem function_self_reference_edge (f : functionSQLVertexGenerator.t)
    (newFunction oldFunction : Function) (G : SchemaQualifiedName) :
  G ∈ elems (DependsOnFunctions newFunction) ->
  GetFQEscapedName G
    = GetFQEscapedName (Function_SchemaQualifiedName newFunction) ->
  exists deps d,
    functionSQLVertexGenerator.GetAddAlterDependencies f newFunction oldFunction
      = Ok deps
    /\ d ∈ deps
    /\ source d = target d
    /\ target d = functionSQLVertexGenerator.GetSQLVertexId f newFunction
                    diffTypeAddAlter.
Proof.
  intros HG Hself. rewrite function_GetAddAlterDependencies_eq.
  eexists. exists (edge (functionVertex G diffTypeAddAlter)
                     (functionVertex (Function_SchemaQualifiedName newFunction)
                        diffTypeAddAlter)).
  split; [reflexivity|]. split.
  - apply elem_of_function_edges. left. apply elem_of_functionNewEdges.
    left. by exists G.
  - split; [|done]. cbn. unfold functionVertex. by rewrite Hself.
Qed.

(** X12. When the old function is not the zero function, every function it
    lists gets the edge from the new function's AddAlter vertex to its
    Delete vertex, whether or not the new function still lists it. When the
    old function is the zero function, no edge ends at a Delete vertex. *)
Theorem function_old_dependencies_edges (f : functionSQLVertexGenerator.t)
    (newFunction oldFunction : Function) :
  exists deps,
    functionSQLVertexGenerator.GetAddAlterDependencies f newFunction oldFunction
      = Ok deps
    /\ (oldFunction <> zeroFunction ->
        forall G, G ∈ elems (DependsOnFunctions oldFunction) ->
          edge (functionVertex (Function_SchemaQualifiedName newFunction)
                  diffTypeAddAlter)
            (functionVertex G diffTypeDelete) ∈ deps)
    /\ (oldFunction = zeroFunction ->
        forall d, d ∈ deps -> vertexDiffType (target d) = diffTypeAddAlter).
Proof.
  rewrite function_GetAddAlterDependencies_eq. eexists.
  split; [reflexivity|]. split.
  - intros Hold G HG. apply elem_of_function_edges. right. right.
    split; [done|]. apply elem_of_functionOldEdges. by exists G.
  - intros -> d Hd.
    apply elem_of_function_edges in Hd as [Hd|[Hd|[Hne _]]]; [| |done].
    + apply elem_of_functionNewEdges in Hd as [(x & _ & ->)|(x & _ & ->)]; done.
    + apply elem_of_columnEdges in Hd as (ref & td & _ & _ & _ & ->). done.
Qed.

(** X13. The Delete edges of a function are one edge per entry of its list
    of functions, in the order of the list, from its Delete vertex to the
    Delete vertex of the entry; the tables it lists and the tracked table
    diffs add nothing. *)
Theorem function_delete_edges (f : functionSQLVertexGenerator.t)
    (function : Function) :
  functionSQLVertexGenerator.GetDeleteDependencies f function
  = Ok (map (fun G => edge (functionVertex
                              (Function_SchemaQualifiedName function)
                              diffTypeDelete)
                        (functionVertex G diffTypeDelete))
          (elems (DependsOnFunctions function))).
Proof.
  unfold functionSQLVertexGenerator.GetDeleteDependencies. cbv zeta.
  by rewrite range_append_all.
Qed.

(** X14. The loop over the referenced columns leaves the edges as they are
    exactly when no reference and tracked table diff are such that the diff
    is named by the reference, has a non-zero old side and lacks the
    referenced column there. In particular a reference to a column the old
    table already has adds nothing. *)
Theorem referenced_columns_loop_is_noop_iff
    (f : functionSQLVertexGenerator.t) (newFunction : Function)
    (deps : list dependency) :
  functionSQLVertexGenerator.referencedColumnsLoop f newFunction deps = deps
  <-> forall ref td,
        ref ∈ elems (ReferencedColumns newFunction) ->
        td ∈ functionSQLVertexGenerator.tableDiffs f ->
        (GetName (Table_SchemaQualifiedName (old td)) = TableName ref
         \/ GetName (Table_SchemaQualifiedName (new td)) = TableName ref) ->
        old td = zeroTable \/ hasColumn (old td) (ColumnName ref).
Proof.
  rewrite referencedColumnsLoop_eq. split.
  - intros Heq ref td Href Htd Hname.
    destruct (decide (old td = zeroTable)) as [|Hold]; [by left|]. right.
    apply columnFound_hasColumn.
    destruct (functionSQLVertexGenerator.columnFound _ _) eqn:Hfound; [done|].
    assert (Hin : columnEdge newFunction td
                  ∈ columnEdges (functionSQLVertexGenerator.tableDiffs f)
                      newFunction).
    { apply elem_of_columnEdges. exists ref, td. repeat split; try done.
      rewrite <- columnFound_hasColumn. by rewrite Hfound. }
    rewrite <- (app_nil_r deps) in Heq at 2. apply app_inv_head in Heq.
    rewrite Heq in Hin. by apply elem_of_nil in Hin.
  - intros Hnone.
    assert (columnEdges (functionSQLVertexGenerator.tableDiffs f) newFunction
            = []) as ->; [|by rewrite app_nil_r].
    apply elem_of_nil_inv. intros d Hd.
    apply elem_of_columnEdges
      in Hd as (ref & td & Href & Htd & (Hname & Hold & Hcol) & _).
    destruct (Hnone ref td Href Htd Hname); done.
Qed.

(** X15. The edge for an added column starts at the table vertex named by
    the new side of the diff, also when the diff was matched by its old
    side: for a diff whose new side is the zero table (a dropped table) the
    edge starts at the table vertex of the zero name. *)
Theorem dropped_table_column_edge (f : functionSQLVertexGenerator.t)
    (newFunction oldFunction : Function) (ref : TableColumnRef)
    (td : tableDiff) :
  ref ∈ elems (ReferencedColumns newFunction) ->
  td ∈ functionSQLVertexGenerator.tableDiffs f ->
  GetName (Table_SchemaQualifiedName (old td)) = TableName ref ->
  old td <> zeroTable ->
  ~ hasColumn (old td) (ColumnName ref) ->
  new td = zeroTable ->
  exists deps,
    functionSQLVertexGenerator.GetAddAlterDependencies f newFunction oldFunction
      = Ok deps
    /\ edge (tableVertex zeroName diffTypeAddAlter)
         (functionVertex (Function_SchemaQualifiedName newFunction)
            diffTypeAddAlter) ∈ deps.
Proof.
  intros Href Htd Hname Hold Hcol Hnew.
  rewrite function_GetAddAlterDependencies_eq. eexists. split; [reflexivity|].
  apply elem_of_function_edges. right. left.
  apply elem_of_columnEdges. exists ref, td.
  repeat split; try done; [by left|].
  unfold columnEdge. by rewrite Hnew.
Qed.

End further_function_edges.

(** ** Further properties: anchors, lookups and quoting *)

Section further_helpers.
Import schema diff spec further.

(** X16. Every AddAlter edge of the three generators either runs an AddAlter
    vertex before the object's own AddAlter vertex or runs that vertex
    before a Delete vertex; every Delete edge runs the object's own Delete
    vertex before a Delete vertex. No edge joins two foreign vertices and
    none runs a Delete vertex before an AddAlter vertex. *)
Theorem edges_anchor_at_own_vertex :
  (forall (g : viewSQLVertexGenerator.t) s s' deps d,
     viewSQLVertexGenerator.GetAddAlterDependencies g s s' = Ok deps ->
     d ∈ deps ->
     anchoredAddAlter (viewSQLVertexGenerator.GetSQLVertexId g s diffTypeAddAlter)
       d)
  /\ (forall (g : viewSQLVertexGenerator.t) s deps d,
        viewSQLVertexGenerator.GetDeleteDependencies g s = Ok deps ->
        d ∈ deps ->
        anchoredDelete (viewSQLVertexGenerator.GetSQLVertexId g s diffTypeDelete)
          d)
  /\ (forall (g : functionSQLVertexGenerator.t) s s' deps d,
        functionSQLVertexGenerator.GetAddAlterDependencies g s s' = Ok deps ->
        d ∈ deps ->
        anchoredAddAlter
          (functionSQLVertexGenerator.GetSQLVertexId g s diffTypeAddAlter) d)
  /\ (forall (g : functionSQLVertexGenerator.t) s deps d,
        functionSQLVertexGenerator.GetDeleteDependencies g s = Ok deps ->
        d ∈ deps ->
        anchoredDelete
          (functionSQLVertexGenerator.GetSQLVertexId g s diffTypeDelete) d)
  /\ (forall (g : eventTriggerSQLVertexGenerator.t) s s' deps d,
        eventTriggerSQLVertexGenerator.GetAddAlterDependencies g s s' = Ok deps ->
        d ∈ deps ->
        anchoredAddAlter
          (eventTriggerSQLVertexGenerator.GetSQLVertexId g s diffTypeAddAlter) d)
  /\ (forall (g : eventTriggerSQLVertexGenerator.t) s deps d,
        eventTriggerSQLVertexGenerator.GetDeleteDependencies g s = Ok deps ->
        d ∈ deps ->
        anchoredDelete
          (eventTriggerSQLVertexGenerator.GetSQLVertexId g s diffTypeDelete) d).
Proof.
  unfold anchoredAddAlter, anchoredDelete. repeat apply conj.
  - intros g s s' deps d. rewrite view_GetAddAlterDependencies_eq.
    intros [= <-] Hd. apply elem_of_app in Hd as [Hd|Hd].
    + left. apply elem_of_viewNewEdges
        in Hd as [(x & _ & ->)|(x & _ & _ & ->)]; done.
    + right. destruct (decide (s' <> zeroView)); [|by apply elem_of_nil in Hd].
      apply elem_of_viewOldEdges
        in Hd as [(x & _ & _ & ->)|(x & _ & _ & ->)]; done.
  - intros g s deps d. rewrite view_GetDeleteDependencies_eq.
    intros [= <-] Hd.
    apply elem_of_viewDeleteEdges
      in Hd as [(x & _ & ->)|(x & _ & _ & ->)]; done.
  - intros g s s' deps d. rewrite function_GetAddAlterDependencies_eq.
    intros [= <-] Hd.
    apply elem_of_function_edges in Hd as [Hd|[Hd|[_ Hd]]].
    + left. apply elem_of_functionNewEdges
        in Hd as [(x & _ & ->)|(x & _ & ->)]; done.
    + left. apply elem_of_columnEdges in Hd as (ref & td & _ & _ & _ & ->).
      done.
    + right. apply elem_of_functionOldEdges in Hd as (x & _ & ->). done.
  - intros g s deps d.
    unfold functionSQLVertexGenerator.GetDeleteDependencies. cbv zeta.
    rewrite range_append_all. intros [= <-] Hd.
    apply list_elem_of_fmap in Hd as (x & -> & _). done.
  - intros g s s' deps d [= <-] Hd. left.
    apply list_elem_of_singleton in Hd as ->. done.
  - intros g s deps d [= <-] Hd.
    apply list_elem_of_singleton in Hd as ->. done.
Qed.

(** X17. [contains] answers true exactly when some element of the slice has
    the fully-qualified escaped name of the name asked for: names are
    compared by that string, so two names with the same string are not told
    apart, and a nil or empty slice contains nothing. *)
Theorem contains_by_name (names : slice SchemaQualifiedName)
    (name : SchemaQualifiedName) :
  (contains names name = true
   <-> exists n, n ∈ elems names
         /\ GetFQEscapedName n = GetFQEscapedName name)
  /\ (forall name', GetFQEscapedName name' = GetFQEscapedName name ->
        contains names name' = contains names name)
  /\ (elems names = [] -> contains names name = false).
Proof.
  split; [apply contains_listed|]. split.
  - intros name' Heq. unfold contains.
    induction (elems names) as [|n rest IH]; [done|].
    cbn. rewrite Heq, IH. done.
  - unfold contains. by intros ->.
Qed.

End further_helpers.

(** ** Further properties: the constructor's maps *)

Section further_maps.
Import schema diff spec further.

Lemma lastNamed_Some (name : string) (l : list EventTrigger)
    (et : EventTrigger) :
  lastNamed name l = Some et -> Name et = name /\ et ∈ l.
Proof.
  induction l as [|e rest IH]; [done|]. cbn.
  destruct (lastNamed name rest) as [e'|].
  - intros [= ->]. destruct IH as [? ?]; [done|].
    split; [done|]. apply elem_of_cons. by right.
  - destruct (decide (Name e = name)); [|done]. intros [= ->].
    split; [done|]. apply elem_of_cons. by left.
Qed.

Lemma lastNamed_None (name : string) (l : list EventTrigger) :
  lastNamed name l = None <-> forall e, e ∈ l -> Name e <> name.
Proof.
  induction l as [|e rest IH]; cbn.
  - split; [|done]. intros _ e' He'. by apply elem_of_nil in He'.
  - destruct (lastNamed name rest) as [e'|] eqn:Hlast.
    + split; [done|]. intros Hall.
      apply lastNamed_Some in Hlast as [Hname Hin].
      destruct (Hall e'); [apply elem_of_cons; by right|done].
    + destruct (decide (Name e = name)) as [Heq|Hne].
      * split; [done|]. intros Hall.
        destruct (Hall e); [apply elem_of_cons; by left|done].
      * split; [|done]. intros _ e' He'.
        apply elem_of_cons in He' as [->|He']; [done|]. by apply IH.
Qed.

Lemma lastNamed_app (name : string) (l1 l2 : list EventTrigger) :
  lastNamed name (l1 ++ l2)
  = match lastNamed name l2 with
    | Some et => Some et
    | None => lastNamed name l1
    end.
Proof.
  induction l1 as [|e l1 IH]; cbn.
  - by destruct (lastNamed name l2).
  - rewrite IH. by destruct (lastNamed name l2).
Qed.

(** The loop that fills a map: the entry of a name is the last trigger of
    that name, or what the map held before. *)
Lemma byName_lookup (l : list EventTrigger) (m : gmap string EventTrigger)
    (k : string) :
  range l (fun m et => <[Name et := et]> m) m !! k
  = match lastNamed k l with
    | Some et => Some et
    | None => m !! k
    end.
Proof.
  unfold range. revert m. induction l as [|e rest IH]; intros m; [done|].
  cbn. rewrite IH. destruct (lastNamed k rest); [done|].
  rewrite lookup_insert. by destruct (decide (Name e = k)).
Qed.

Lemma byName_indexes (l : list EventTrigger) :
  indexes (range l (fun m et => <[Name et := et]> m)
             (∅ : gmap string EventTrigger)) l.
Proof.
  unfold indexes. repeat apply conj.
  - intros k et. rewrite byName_lookup.
    destruct (lastNamed k l) as [e|] eqn:Hlast; [|by rewrite lookup_empty].
    intros [= ->]. by apply lastNamed_Some.
  - intros et Het. rewrite byName_lookup.
    destruct (lastNamed (Name et) l) as [e|] eqn:Hlast; [by eexists|].
    by destruct (proj1 (lastNamed_None _ _) Hlast et Het).
  - intros l1 et l2 -> Hlater. rewrite byName_lookup, lastNamed_app. cbn.
    apply lastNamed_None in Hlater. rewrite Hlater.
    by destruct (decide (Name et = Name et)).
Qed.

(** X18. The constructor indexes each of its two lists by trigger name,
    independently of the other: every entry of a map is a trigger of its
    list stored under its own name, every trigger of the list has an entry
    under its name, and of several triggers of one name the last one of the
    list is the entry. Without triggers a map is empty. *)
Theorem constructor_indexes_by_name
    (oldEventTriggers newEventTriggers : slice EventTrigger) :
  indexes
    (eventTriggerSQLVertexGenerator.oldEventTriggersByName
       (eventTriggerSQLVertexGenerator.newEventTriggerSQLVertexGenerator
          oldEventTriggers newEventTriggers))
    (elems oldEventTriggers)
  /\ indexes
       (eventTriggerSQLVertexGenerator.newEventTriggersByName
          (eventTriggerSQLVertexGenerator.newEventTriggerSQLVertexGenerator
             oldEventTriggers newEventTriggers))
       (elems newEventTriggers)
  /\ (elems newEventTriggers = [] ->
      eventTriggerSQLVertexGenerator.newEventTriggersByName
        (eventTriggerSQLVertexGenerator.newEventTriggerSQLVertexGenerator
           oldEventTriggers newEventTriggers) = ∅)
  /\ (elems oldEventTriggers = [] ->
      eventTriggerSQLVertexGenerator.oldEventTriggersByName
        (eventTriggerSQLVertexGenerator.newEventTriggerSQLVertexGenerator
           oldEventTriggers newEventTriggers) = ∅).
Proof.
  unfold eventTriggerSQLVertexGenerator.newEventTriggerSQLVertexGenerator.
  cbn. repeat apply conj; try apply byName_indexes; by intros ->.
Qed.

End further_maps.

(** ** Further properties: quoting of tags *)

Section further_quoting.
Import schema diff spec further.

Lemma append_nil_r (s : string) : s +:+ EmptyString = s.
Proof. induction s as [|c s IH]; [done|]. by rewrite append_cons, IH. Qed.

Lemma length_append (a b : string) :
  String.length (a +:+ b) = String.length a + String.length b.
Proof.
  induction a as [|c a IH]; [done|]. rewrite append_cons. cbn. by rewrite IH.
Qed.

(** Inside a literal the escaped tag is read as the tag. *)
Lemma readLiterals_escaped (tag literal : string) (read : list string)
    (rest : string) :
  readLiterals (Inside literal) read (ReplaceAll tag squote "''" +:+ rest)
  = readLiterals (Inside (literal +:+ tag)) read rest.
Proof.
  revert literal. induction tag as [|c tag IH]; intros literal.
  - by rewrite append_nil_r.
  - cbn [ReplaceAll]. destruct (Ascii.eqb c squote) eqn:Hc.
    + apply Ascii.eqb_eq in Hc. subst c.
      rewrite append_assoc.
      change ("''" +:+ ReplaceAll tag squote "''" +:+ rest)
        with (String squote
                (String squote (ReplaceAll tag squote "''" +:+ rest))).
      cbn [readLiterals]. rewrite Ascii.eqb_refl, IH.
      unfold snoc. by rewrite append_assoc.
    + rewrite append_cons. cbn [readLiterals]. rewrite Hc, IH.
      unfold snoc. by rewrite append_assoc.
Qed.

(** A quoted tag is read up to its closing quote. *)
Lemma readLiterals_quoteTag (tag : string) (read : list string)
    (rest : string) :
  readLiterals Outside read
    (eventTriggerSQLVertexGenerator.quoteTag tag +:+ rest)
  = readLiterals (AfterQuote tag) read rest.
Proof.
  unfold eventTriggerSQLVertexGenerator.quoteTag.
  rewrite !append_assoc.
  change ("'" +:+ ReplaceAll tag squote "''" +:+ "'" +:+ rest)
    with (String squote (ReplaceAll tag squote "''" +:+ "'" +:+ rest)).
  cbn [readLiterals]. rewrite Ascii.eqb_refl, readLiterals_escaped.
  change ("'" +:+ rest) with (String squote rest).
  cbn [readLiterals]. by rewrite Ascii.eqb_refl.
Qed.

Lemma readLiterals_joined (tags read : list string) :
  readLiterals Outside read
    (Join (map eventTriggerSQLVertexGenerator.quoteTag tags) ", ")
  = Some (read ++ tags).
Proof.
  revert read. induction tags as [|tag tags IH]; intros read.
  - by rewrite app_nil_r.
  - destruct tags as [|tag' tags].
    + cbn [map Join].
      rewrite <- (append_nil_r (eventTriggerSQLVertexGenerator.quoteTag tag)).
      by rewrite readLiterals_quoteTag.
    + change (Join (map eventTriggerSQLVertexGenerator.quoteTag
                      (tag :: tag' :: tags)) ", ")
        with (eventTriggerSQLVertexGenerator.quoteTag tag +:+ ", "
                +:+ Join (map eventTriggerSQLVertexGenerator.quoteTag
                            (tag' :: tags)) ", ").
      rewrite readLiterals_quoteTag.
      change (", " +:+ ?s) with (String (ascii_of_nat 44)
                                   (String (ascii_of_nat 32) s)).
      cbn [readLiterals]. cbn [Ascii.eqb isSeparator]. cbn.
      rewrite IH. by rewrite <- app_assoc.
Qed.

(** X19. The tag list [Add] writes between the parentheses of WHEN TAG IN
    reads back, as comma-separated SQL string literals, as the tags
    themselves: no quote inside a tag ends its literal. Hence different tag
    lists are written differently. *)
Theorem tag_list_reads_back (tags : list string) :
  readLiterals Outside []
    (Join (map eventTriggerSQLVertexGenerator.quoteTag tags) ", ")
  = Some tags
  /\ (forall tags',
        Join (map eventTriggerSQLVertexGenerator.quoteTag tags) ", "
          = Join (map eventTriggerSQLVertexGenerator.quoteTag tags') ", " ->
        tags = tags').
Proof.
  split; [apply readLiterals_joined|].
  intros tags' Heq.
  pose proof (readLiterals_joined tags []) as Hread.
  rewrite Heq, readLiterals_joined in Hread. by injection Hread.
Qed.

Lemma length_ReplaceAll (s : string) :
  String.length (ReplaceAll s squote "''") = String.length s + countQuotes s.
Proof.
  induction s as [|c s IH]; [done|]. cbn [ReplaceAll countQuotes].
  destruct (Ascii.eqb c squote).
  - rewrite length_append, IH. cbn. lia.
  - cbn. rewrite IH. lia.
Qed.

(** X20. Quoting makes a tag longer by two and by one more for each of its
    single quotes; the text between the outer quotes is the tag itself
    exactly when the tag has no single quote. *)
Theorem quoted_tag_length (tag : string) :
  String.length (eventTriggerSQLVertexGenerator.quoteTag tag)
    = String.length tag + countQuotes tag + 2
  /\ (eventTriggerSQLVertexGenerator.quoteTag tag = "'" +:+ tag +:+ "'"
      <-> countQuotes tag = 0).
Proof.
  unfold eventTriggerSQLVertexGenerator.quoteTag. split.
  - rewrite !length_append, length_ReplaceAll. cbn. lia.
  - split.
    + intros Heq. apply (f_equal String.length) in Heq.
      rewrite !length_append, length_ReplaceAll in Heq. cbn in Heq. lia.
    + intros Hnone. do 2 f_equal.
      induction tag as [|c tag IH]; [done|]. cbn [ReplaceAll countQuotes] in *.
      destruct (Ascii.eqb c squote); [done|]. by rewrite IH.
Qed.

End further_quoting.

(** ** Further properties: adding against deleting *)

Section further_mirror.
Import schema diff spec further.

Lemma fmap_bind_if {A : Type} (c : A -> bool) (g h : A -> dependency)
    (l : list A) :
  (forall x, mirror (g x) = h x) ->
  map mirror (l ≫= fun x => if c x then [g x] else [])
  = (l ≫= fun x => if c x then [h x] else []).
Proof.
  intros Hgh. induction l as [|x l IH]; [done|].
  rewrite !bind_cons, map_app, IH. destruct (c x); [|done]. cbn.
  by rewrite Hgh.
Qed.

(** X21. For a view and for an event trigger, the Delete edges are the
    edges of a plain add seen from the other side: each edge is reversed and
    each AddAlter vertex becomes the Delete vertex of the same object, in the
    same order. What must exist before the object is torn down after it. *)
Theorem delete_edges_mirror_add_edges :
  (forall (v : viewSQLVertexGenerator.t) (view : View),
     exists added deleted,
       viewSQLVertexGenerator.GetAddAlterDependencies v view zeroView
         = Ok added
       /\ viewSQLVertexGenerator.GetDeleteDependencies v view = Ok deleted
       /\ deleted = map mirror added)
  /\ (forall (et : eventTriggerSQLVertexGenerator.t) (e oldET : EventTrigger),
        exists added deleted,
          eventTriggerSQLVertexGenerator.GetAddAlterDependencies et e oldET
            = Ok added
          /\ eventTriggerSQLVertexGenerator.GetDeleteDependencies et e
               = Ok deleted
          /\ deleted = map mirror added).
Proof.
  split.
  - intros v view.
    rewrite view_GetAddAlterDependencies_eq, view_GetDeleteDependencies_eq.
    do 2 eexists. split; [reflexivity|]. split; [reflexivity|].
    destruct (decide (zeroView <> zeroView)); [done|].
    rewrite app_nil_r. unfold viewDeleteEdges, viewNewEdges.
    rewrite map_app, map_map. f_equal. symmetry. by apply fmap_bind_if.
  - intros et e oldET. do 2 eexists. split; [reflexivity|].
    split; reflexivity.
Qed.

(** X22. A function is different: its AddAlter edges start at the tables it
    lists, but none of its Delete edges ends at a table. *)
Theorem function_delete_edges_skip_tables (f : functionSQLVertexGenerator.t)
    (function oldFunction : Function) (T : SchemaQualifiedName) :
  T ∈ elems (Function_DependsOnTables function) ->
  exists added deleted,
    functionSQLVertexGenerator.GetAddAlterDependencies f function oldFunction
      = Ok added
    /\ functionSQLVertexGenerator.GetDeleteDependencies f function
         = Ok deleted
    /\ edge (tableVertex T diffTypeAddAlter)
         (functionVertex (Function_SchemaQualifiedName function)
            diffTypeAddAlter) ∈ added
    /\ forall d, d ∈ deleted -> objType (target d) = "function".
Proof.
  intros HT. rewrite function_GetAddAlterDependencies_eq.
  unfold functionSQLVertexGenerator.GetDeleteDependencies. cbv zeta.
  rewrite range_append_all. do 2 eexists.
  split; [reflexivity|]. split; [reflexivity|]. split.
  - apply elem_of_function_edges. left. apply elem_of_functionNewEdges.
    right. by exists T.
  - intros d Hd. apply list_elem_of_fmap in Hd as (G & -> & _). done.
Qed.

End further_mirror.

(** ** Further scenarios *)

Section further_scenarios.
Import schema diff spec scenario further.

(** The trigger log_ddl gets another tag list: drop, then create. *)
Lemma event_trigger_alter_drops_then_creates_witness :
  exists drop create,
    eventTriggerSQLVertexGenerator.Alter (H := defaults) eventTriggerGen
      {| old := log_ddl; new := log_quoted |} = Ok [drop; create]
    /\ DDL drop = "DROP EVENT TRIGGER IF EXISTS " +:+ EscapeIdentifier "log_ddl".
Proof.
  destruct (event_trigger_alter_drops_then_creates (H := defaults)
              eventTriggerGen {| old := log_ddl; new := log_quoted |})
    as [_ Hne].
  destruct Hne as (drop & create & Halter & _ & _ & Hdrop); [compute_done|].
  by exists drop, create.
Defined.

(** Disabling log_ddl: it is dropped and created again by the statement
    that created it enabled. *)
Lemma event_trigger_recreated_unchanged_witness :
  exists drop create,
    eventTriggerSQLVertexGenerator.Alter (H := defaults) eventTriggerGen
      {| old := log_ddl; new := log_ddl_disabled |} = Ok [drop; create]
    /\ eventTriggerSQLVertexGenerator.Add (H := defaults) eventTriggerGen
         log_ddl = Ok [create].
Proof.
  destruct (event_trigger_recreated_unchanged (H := defaults) eventTriggerGen
              log_ddl log_ddl_disabled) as [_ Halter]; try reflexivity.
  apply Halter. compute_done.
Defined.

(** The drop of expensive_products has the default timeouts. *)
Lemma statements_use_default_timeouts_witness :
  usesDefaultTimeouts (H := defaults)
    {| DDL := "DROP VIEW " +:+ GetFQEscapedName (public "expensive_products");
       Timeout := 3000000000%Z; LockTimeout := 3000000000%Z;
       Hazards := [ {| Type_ := MigrationHazardTypeDeletesData;
                       Message := "Deletes the view" |} ] |}.
Proof.
  apply (proj1 (statements_use_default_timeouts (H := defaults)) viewGen).
  eexists. split; [by apply list_elem_of_singleton|].
  right. left. exists expensive_100. reflexivity.
Defined.

(** The create of expensive_products carries no DeletesData. *)
Lemma hazards_by_generator_witness :
  ~ carries MigrationHazardTypeDeletesData
      {| DDL := "CREATE VIEW " +:+ GetFQEscapedName (public "expensive_products")
                  +:+ " AS SELECT * FROM products WHERE price > 200";
         Timeout := 3000000000%Z; LockTimeout := 3000000000%Z;
         Hazards := [] |}.
Proof.
  intros Hc.
  apply (proj1 (hazards_by_generator (H := defaults)) viewGen) in Hc.
  - discriminate Hc.
  - eexists. split; [by apply list_elem_of_singleton|].
    left. exists expensive_200. reflexivity.
Defined.

(** Replacing the sql function f by a plpgsql one carries the hazard. *)
Lemma function_alter_hazard_witness :
  exists s,
    s ∈ [ {| DDL := FunctionDef f_plpgsql;
             Timeout := 3000000000%Z; LockTimeout := 3000000000%Z;
             Hazards :=
               [ {| Type_ := MigrationHazardTypeHasUntrackableDependencies;
                    Message := functionSQLVertexGenerator.addHazardMessage |} ]
          |} ]
    /\ carries MigrationHazardTypeHasUntrackableDependencies s.
Proof.
  apply (function_alter_hazard (H := defaults) (functionGen [])
           {| old := f; new := f_plpgsql |}).
  - reflexivity.
  - split; compute_done.
Defined.

(** quarterly_sales stops reading monthly_sales and reads sales. *)
Lemma view_add_alter_edges_witness :
  exists deps,
    viewSQLVertexGenerator.GetAddAlterDependencies viewGen
      quarterly_sales_direct quarterly_sales = Ok deps
    /\ edge (tableVertex (public "sales") diffTypeAddAlter)
         (viewVertex (public "quarterly_sales") diffTypeAddAlter) ∈ deps.
Proof.
  destruct (view_add_alter_edges viewGen quarterly_sales_direct quarterly_sales)
    as (deps & Hdeps & Hiff).
  exists deps. split; [exact Hdeps|]. apply Hiff. left.
  exists (public "sales"). split; [compute_done|reflexivity].
Defined.

Lemma view_delete_edges_witness :
  exists deps,
    viewSQLVertexGenerator.GetDeleteDependencies viewGen recursive_view
      = Ok deps
    /\ edge (viewVertex (public "r") diffTypeDelete)
         (viewVertex (public "monthly_sales") diffTypeDelete) ∈ deps.
Proof.
  destruct (view_delete_edges viewGen recursive_view)
    as (deps & Hdeps & Hiff).
  exists deps. split; [exact Hdeps|]. apply Hiff. right.
  exists (public "monthly_sales").
  split; [compute_done|]. split; [compute_done|reflexivity].
Defined.

(** The view r stops reading itself. *)
Lemma view_old_self_reference_edge_witness :
  exists deps,
    viewSQLVertexGenerator.GetAddAlterDependencies viewGen plain_r
      recursive_view = Ok deps
    /\ edge (viewVertex (public "r") diffTypeAddAlter)
         (viewVertex (public "r") diffTypeDelete) ∈ deps.
Proof.
  apply (view_old_self_reference_edge viewGen plain_r recursive_view
           (public "r")).
  - compute_done.
  - compute_done.
  - reflexivity.
  - rewrite <- contains_listed. compute_done.
Defined.

(** The function fact runs after mul. *)
Lemma function_add_alter_edges_witness :
  exists deps,
    functionSQLVertexGenerator.GetAddAlterDependencies (functionGen []) fact
      zeroFunction = Ok deps
    /\ edge (functionVertex (public "mul(integer)") diffTypeAddAlter)
         (functionVertex (public "fact(integer)") diffTypeAddAlter) ∈ deps.
Proof.
  destruct (function_add_alter_edges (functionGen []) fact zeroFunction)
    as (deps & Hdeps & Hiff).
  exists deps. split; [exact Hdeps|]. apply Hiff. left.
  exists (public "mul(integer)"). split; [compute_done|reflexivity].
Defined.

(** The function fact, which calls itself, gets an edge onto itself. *)
Lemma function_self_reference_edge_witness :
  exists deps d,
    functionSQLVertexGenerator.GetAddAlterDependencies (functionGen []) fact
      zeroFunction = Ok deps
    /\ d ∈ deps /\ source d = target d
    /\ target d = functionVertex (public "fact(integer)") diffTypeAddAlter.
Proof.
  apply (function_self_reference_edge (functionGen []) fact zeroFunction
           (public "fact(integer)")).
  - compute_done.
  - reflexivity.
Defined.

(** fact is replaced by a function that calls nothing. *)
Lemma function_old_dependencies_edges_witness :
  exists deps,
    functionSQLVertexGenerator.GetAddAlterDependencies (functionGen []) f fact
      = Ok deps
    /\ edge (functionVertex (public "f()") diffTypeAddAlter)
         (functionVertex (public "mul(integer)") diffTypeDelete) ∈ deps.
Proof.
  destruct (function_old_dependencies_edges (functionGen []) f fact)
    as (deps & Hdeps & Hold & _).
  exists deps. split; [exact Hdeps|]. apply Hold; compute_done.
Defined.

(** The function that reads t.a gets no edge from the alter of t. *)
Lemma referenced_columns_loop_is_noop_iff_witness :
  functionSQLVertexGenerator.referencedColumnsLoop (functionGen [t_diff])
    reads_a [] = [].
Proof.
  apply (referenced_columns_loop_is_noop_iff (functionGen [t_diff]) reads_a []).
  intros ref td Href Htd _. right.
  apply list_elem_of_singleton in Href. apply list_elem_of_singleton in Htd.
  subst ref td. apply columnFound_hasColumn. reflexivity.
Defined.

(** The table t is dropped while f still refers to its missing column b. *)
Lemma dropped_table_column_edge_witness :
  exists deps,
    functionSQLVertexGenerator.GetAddAlterDependencies (functionGen [t_dropped])
      f zeroFunction = Ok deps
    /\ edge (tableVertex zeroName diffTypeAddAlter)
         (functionVertex (public "f()") diffTypeAddAlter) ∈ deps.
Proof.
  apply (dropped_table_column_edge (functionGen [t_dropped]) f zeroFunction
           t_b t_dropped).
  - compute_done.
  - apply list_elem_of_singleton. reflexivity.
  - reflexivity.
  - compute_done.
  - rewrite <- columnFound_hasColumn. compute_done.
  - reflexivity.
Defined.

(** The one Delete edge of the trigger log_ddl starts at its own vertex. *)
Lemma edges_anchor_at_own_vertex_witness :
  anchoredDelete (eventTriggerVertex log_ddl diffTypeDelete)
    (edge (eventTriggerVertex log_ddl diffTypeDelete)
       (functionVertex (public "log_ddl_command") diffTypeDelete)).
Proof.
  destruct edges_anchor_at_own_vertex as (_ & _ & _ & _ & _ & Hdelete).
  apply (Hdelete eventTriggerGen log_ddl
           [edge (eventTriggerVertex log_ddl diffTypeDelete)
              (functionVertex (public "log_ddl_command") diffTypeDelete)]).
  - reflexivity.
  - by apply list_elem_of_singleton.
Defined.

(** quarterly_sales lists monthly_sales. *)
Lemma contains_by_name_witness :
  contains (DependsOnViews quarterly_sales) (public "monthly_sales") = true.
Proof.
  apply (proj1 (contains_by_name (DependsOnViews quarterly_sales)
                  (public "monthly_sales"))).
  exists (public "monthly_sales"). split; [compute_done|reflexivity].
Defined.

(** Two triggers named log_ddl: the later one is the entry. *)
Lemma constructor_indexes_by_name_witness :
  eventTriggerSQLVertexGenerator.newEventTriggersByName
    (eventTriggerSQLVertexGenerator.newEventTriggerSQLVertexGenerator
       None (Some [log_ddl; audit; log_ddl_disabled]))
    !! "log_ddl" = Some log_ddl_disabled.
Proof.
  destruct (constructor_indexes_by_name None
              (Some [log_ddl; audit; log_ddl_disabled]))
    as (_ & (_ & _ & Hlast) & _).
  apply (Hlast [log_ddl; audit] log_ddl_disabled []).
  - reflexivity.
  - intros e He. by apply elem_of_nil in He.
Defined.

(** A tag with a quote is told from the tag without it. *)
Lemma tag_list_reads_back_witness :
  ["it's"; "DROP TABLE"] = ["it's"; "DROP TABLE"]
  /\ readLiterals Outside [] "'it''s', 'DROP TABLE'"
     = Some ["it's"; "DROP TABLE"].
Proof.
  destruct (tag_list_reads_back ["it's"; "DROP TABLE"]) as [Hread Hinj].
  split; [apply Hinj; reflexivity|exact Hread].
Defined.

(** CREATE TABLE has no single quote and is quoted as it is. *)
Lemma quoted_tag_length_witness :
  eventTriggerSQLVertexGenerator.quoteTag "CREATE TABLE" = "'CREATE TABLE'".
Proof.
  apply (quoted_tag_length "CREATE TABLE"). reflexivity.
Defined.

(** The function fact lists the table numbers. *)
Lemma function_delete_edges_skip_tables_witness :
  exists added deleted,
    functionSQLVertexGenerator.GetAddAlterDependencies (functionGen []) fact
      zeroFunction = Ok added
    /\ functionSQLVertexGenerator.GetDeleteDependencies (functionGen []) fact
         = Ok deleted
    /\ edge (tableVertex (public "numbers") diffTypeAddAlter)
         (functionVertex (public "fact(integer)") diffTypeAddAlter) ∈ added
    /\ forall d, d ∈ deleted -> objType (target d) = "function".
Proof.
  apply (function_delete_edges_skip_tables (functionGen []) fact zeroFunction
           (public "numbers")).
  compute_done.
Defined.

End further_scenarios.

(** ** Where the generators fall short of the specification *)

Section defects.
Import schema diff spec scenario further.

(** A column reference whose table name does not begin with a double quote
    is matched with no table diff, whatever the diff: [GetName] of a table
    begins with the quoted schema name. *)
Lemma unquoted_reference_matches_no_diff (f : functionSQLVertexGenerator.t)
    (newFunction : Function) (ref : TableColumnRef) (deps : list dependency)
    (td : tableDiff) :
  String.prefix dquote (TableName ref) = false ->
  functionSQLVertexGenerator.columnRefBody f newFunction ref deps td = deps.
Proof.
  intros Hbare.
  assert (Hne : forall o, GetName o <> TableName ref).
  { intros o Heq. rewrite <- Heq in Hbare.
    unfold GetName, GetFQEscapedName, EscapeIdentifier in Hbare.
    rewrite !append_assoc, prefix_append in Hbare. done. }
  unfold functionSQLVertexGenerator.columnRefBody.
  by rewrite !bool_decide_eq_false_2.
Qed.

(** C3. Scenario 6 with the reference written as the repository writes
    references. The table t(a) becomes t(a, b): the diff is tracked, both
    sides are present, the old side has no column b and the new side has
    it; the new function f refers to column b of table t. The edges of f
    are empty: the edge from the AddAlter vertex of t is missing, because
    the bare name t is compared with the fully-qualified escaped name of
    the table. *)
Theorem bare_column_reference_gets_no_edge :
  t_b_bare ∈ elems (ReferencedColumns f_bare)
  /\ t_diff ∈ functionSQLVertexGenerator.tableDiffs (functionGen [t_diff])
  /\ Table_SchemaQualifiedName (old t_diff) = public (TableName t_b_bare)
  /\ Table_SchemaQualifiedName (new t_diff) = public (TableName t_b_bare)
  /\ old t_diff <> zeroTable
  /\ new t_diff <> zeroTable
  /\ ~ hasColumn (old t_diff) (ColumnName t_b_bare)
  /\ hasColumn (new t_diff) (ColumnName t_b_bare)
  /\ functionSQLVertexGenerator.GetAddAlterDependencies (functionGen [t_diff])
       f_bare zeroFunction = Ok []
  /\ edge (tableVertex (public "t") diffTypeAddAlter)
       (functionVertex (public "f()") diffTypeAddAlter)
       ∉ ([] : list dependency).
Proof.
  split; [compute_done|]. split; [by apply list_elem_of_singleton|].
  split; [reflexivity|]. split; [reflexivity|].
  split; [compute_done|]. split; [compute_done|].
  split; [rewrite <- columnFound_hasColumn; compute_done|].
  split; [apply columnFound_hasColumn; reflexivity|].
  split; [vm_compute; reflexivity|]. apply not_elem_of_nil.
Qed.

(** C8. Altering a view, an entry that names the view itself is not
    ignored. When the old view r lists itself and the new one does not, the
    edge from the AddAlter vertex of r to the Delete vertex of r is emitted,
    and it is gone once the entry is removed from the old list. When both
    sides list r, the entry of the new list suppresses that edge: with the
    entry removed from the new list the edge appears. The loops over the old
    view's lists have no test for the view's own name. *)
Theorem view_alter_self_reference_not_ignored :
  viewSQLVertexGenerator.GetAddAlterDependencies viewGen plain_r recursive_view
    = Ok [edge (tableVertex (public "sales") diffTypeAddAlter)
            (viewVertex (public "r") diffTypeAddAlter);
          edge (viewVertex (public "r") diffTypeAddAlter)
            (viewVertex (public "r") diffTypeDelete);
          edge (viewVertex (public "r") diffTypeAddAlter)
            (viewVertex (public "monthly_sales") diffTypeDelete)]
  /\ viewSQLVertexGenerator.GetAddAlterDependencies viewGen plain_r
       (withoutSelfReferences recursive_view)
     = Ok [edge (tableVertex (public "sales") diffTypeAddAlter)
             (viewVertex (public "r") diffTypeAddAlter);
           edge (viewVertex (public "r") diffTypeAddAlter)
             (viewVertex (public "monthly_sales") diffTypeDelete)]
  /\ viewSQLVertexGenerator.GetAddAlterDependencies viewGen recursive_view
       recursive_view_v1
     = Ok [edge (tableVertex (public "sales") diffTypeAddAlter)
             (viewVertex (public "r") diffTypeAddAlter);
           edge (viewVertex (public "monthly_sales") diffTypeAddAlter)
             (viewVertex (public "r") diffTypeAddAlter)]
  /\ viewSQLVertexGenerator.GetAddAlterDependencies viewGen
       (withoutSelfReferences recursive_view) recursive_view_v1
     = Ok [edge (tableVertex (public "sales") diffTypeAddAlter)
             (viewVertex (public "r") diffTypeAddAlter);
           edge (viewVertex (public "monthly_sales") diffTypeAddAlter)
             (viewVertex (public "r") diffTypeAddAlter);
           edge (viewVertex (public "r") diffTypeAddAlter)
             (viewVertex (public "r") diffTypeDelete)].
Proof. repeat split; vm_compute; reflexivity. Qed.

End defects.
